(** * watchyPyLib: the lookup table, the e-paper sequence builder and the
      accelerometer register driver of [watchylib.py], embedded and verified.

    The embedding follows the Python source function by function.  Python
    integers are [Z] (with [Z.land], [Z.lor], [Z.shiftr] for [&], [|], [>>]),
    [bytes] are lists of [Z] checked to lie in [0, 256), strings are
    [string], exceptions are values of [exn], and code that mutates [self]
    or talks to hardware lives in a state-and-exception monad. *)

From Stdlib Require Import ZArith QArith List String Ascii Bool Lia.
From Stdlib Require PrimFloat FloatOps SpecFloat Uint63.
Import ListNotations.
Open Scope Z_scope.

(* ================================================================== *)
(** * Exceptions, results and the state monad                          *)
(* ================================================================== *)

(** The exception classes the modelled code can raise, with their message. *)
Inductive exn : Type :=
| RuntimeError (msg : string)
| ValueError (msg : string)
| TypeError (msg : string)
| IndexError (msg : string)
| StructError (msg : string).


(** Outcome of running a piece of code: a value, a raised exception, or
    [Hang] when a polling loop was still spinning as the fuel ran out. *)
Inductive result (A : Type) : Type :=
| Ok (a : A)
| Raise (e : exn)
| Hang.
Arguments Ok {A} a.
Arguments Raise {A} e.
Arguments Hang {A}.

Definition M (S A : Type) : Type := S -> result A * S.

Definition ret {S A} (a : A) : M S A := fun s => (Ok a, s).

Definition bind {S A B} (c : M S A) (k : A -> M S B) : M S B :=
  fun s =>
    match c s with
    | (Ok a, s') => k a s'
    | (Raise e, s') => (Raise e, s')
    | (Hang, s') => (Hang, s')
    end.

Definition raise {S A} (e : exn) : M S A := fun s => (Raise e, s).
Definition get {S} : M S S := fun s => (Ok s, s).
Definition modify {S} (f : S -> S) : M S unit := fun s => (Ok tt, f s).

Declare Scope monad_scope.
Delimit Scope monad_scope with monad.
Notation "x <- c ;; k" := (bind c (fun x => k))
  (at level 61, c at next level, right associativity) : monad_scope.
Notation "c ;;; k" := (bind c (fun _ => k))
  (at level 61, right associativity) : monad_scope.
Open Scope monad_scope.

(** [if c: body] for a statement body. *)
Definition when {S} (c : bool) (body : M S unit) : M S unit :=
  if c then body else ret tt.

(** [bytes([...])]: every element must be an integer in [range(0, 256)]. *)
Definition is_byte (b : Z) : bool := (0 <=? b) && (b <? 256).

Definition bytes (l : list Z) : result (list Z) :=
  if forallb is_byte l then Ok l
  else Raise (ValueError "bytes must be in range(0, 256)").

(** The integers [a], [a + 1], ..., [a + n - 1]. *)
Fixpoint zrange (a : Z) (n : nat) : list Z :=
  match n with
  | O => []
  | S n' => a :: zrange (a + 1) n'
  end.

(** Exceptions in code without state. *)
Definition rbind {A B} (r : result A) (k : A -> result B) : result B :=
  match r with
  | Ok a => k a
  | Raise e => Raise e
  | Hang => Hang
  end.

Definition lift {S A} (r : result A) : M S A := fun s => (r, s).

(** The exception an outcome carries, if any. *)
Definition exception_of {A} (r : result A) : option exn :=
  match r with
  | Raise e => Some e
  | _ => None
  end.

(* ================================================================== *)
(** * Python strings                                                    *)
(* ================================================================== *)

Module PyStr.

(** [str.lower()] on ASCII letters. *)
Definition lower_ascii (c : ascii) : ascii :=
  let n := nat_of_ascii c in
  if ((65 <=? n) && (n <=? 90))%nat then ascii_of_nat (n + 32) else c.

Fixpoint lower (s : string) : string :=
  match s with
  | EmptyString => EmptyString
  | String c s' => String (lower_ascii c) (lower s')
  end.

(** [s.replace(old, '')]: every occurrence of [old], found left to right
    without overlap, is dropped.  [skip] counts the characters of the
    occurrence being dropped that are still ahead. *)
Fixpoint remove_from (old : string) (skip : nat) (s : string) : string :=
  match s with
  | EmptyString => EmptyString
  | String c s' =>
      match skip with
      | S k => remove_from old k s'
      | O =>
          if negb (String.eqb old EmptyString) && prefix old s
          then remove_from old (String.length old - 1) s'
          else String c (remove_from old 0 s')
      end
  end.

Definition remove (old s : string) : string := remove_from old 0 s.

(** ASCII white space, as [str.strip()] sees it. *)
Definition is_space (c : ascii) : bool :=
  let n := nat_of_ascii c in
  (((9 <=? n) && (n <=? 13)) || ((28 <=? n) && (n <=? 32)))%nat.

Fixpoint lstrip (s : string) : string :=
  match s with
  | EmptyString => EmptyString
  | String c s' => if is_space c then lstrip s' else s
  end.

Fixpoint rstrip (s : string) : string :=
  match s with
  | EmptyString => EmptyString
  | String c s' =>
      match rstrip s' with
      | EmptyString => if is_space c then EmptyString else String c EmptyString
      | r => String c r
      end
  end.

Definition strip (s : string) : string := rstrip (lstrip s).

(** [s[-1]], which raises [IndexError] on the empty string. *)
Fixpoint last_char (s : string) : option ascii :=
  match s with
  | EmptyString => None
  | String c EmptyString => Some c
  | String _ s' => last_char s'
  end.

Definition last (s : string) : result string :=
  match last_char s with
  | Some c => Ok (String c EmptyString)
  | None => Raise (IndexError "string index out of range")
  end.

(** [s[:-1]] *)
Fixpoint drop_last (s : string) : string :=
  match s with
  | EmptyString => EmptyString
  | String _ EmptyString => EmptyString
  | String c s' => String c (drop_last s')
  end.

End PyStr.

(* ================================================================== *)
(** * Python floats                                                     *)
(* ================================================================== *)

(** The lookup table uses floats as dictionary keys: it converts numeric
    literals and strings to floats, multiplies by a power of ten and
    compares.  These operations of the interpreter are taken as an
    interface. *)
Class PyFloat : Type := {
  float : Type;
  (** [==] on floats, which dictionary lookup uses *)
  float_eqb : float -> float -> bool;
  (** [float(s)] for a string; [None] stands for [ValueError] *)
  float_of_str : string -> option float;
  (** [float(k)] for an int or float literal of the given decimal value *)
  float_of_num : Q -> float;
  (** [x * 10 ** e] *)
  float_scale : float -> Z -> float
}.

(** An idealised instance with exact decimal arithmetic: floats are
    rationals and [float(s)] reads plain decimal numerals (an optional sign,
    digits, an optional fraction), surrounded by optional white space. *)
Module DecimalFloat.

Definition digit (c : ascii) : option Z :=
  let n := Z.of_nat (nat_of_ascii c) in
  if (48 <=? n) && (n <=? 57) then Some (n - 48) else None.

(** Reads leading digits: accumulated value, number of digits, rest. *)
Fixpoint digits (acc : Z) (count : nat) (s : string) : Z * nat * string :=
  match s with
  | EmptyString => (acc, count, s)
  | String c s' =>
      match digit c with
      | Some d => digits (10 * acc + d) (S count) s'
      | None => (acc, count, s)
      end
  end.

Definition unsigned (s : string) : option Q :=
  let '(i, ni, rest) := digits 0 0 s in
  match rest with
  | EmptyString => if (0 <? ni)%nat then Some (inject_Z i) else None
  | String "." rest' =>
      let '(f, nf, rest'') := digits 0 0 rest' in
      match rest'' with
      | EmptyString =>
          if (0 <? ni + nf)%nat
          then Some (Qred (inject_Z (i * 10 ^ Z.of_nat nf + f)
                           / inject_Z (10 ^ Z.of_nat nf)))
          else None
      | _ => None
      end
  | _ => None
  end.

Definition of_str (s : string) : option Q :=
  match PyStr.strip s with
  | String "-" s' => option_map Qopp (unsigned s')
  | String "+" s' => unsigned s'
  | s' => unsigned s'
  end.

#[export] Instance decimal : PyFloat := {
  float := Q;
  float_eqb := Qeq_bool;
  float_of_str := of_str;
  float_of_num := fun q => q;
  float_scale := fun x e => Qred (x * Qpower 10 e)
}.

End DecimalFloat.

(** IEEE binary64, the float of CPython, on the kernel's primitive floats:
    conversion from an integer, true division of two integers (exact
    operands, one rounding) and the rational a float stands for. *)
Module Binary64.

Definition of_int (z : Z) : PrimFloat.float :=
  if z <? 0 then PrimFloat.opp (PrimFloat.of_uint63 (Uint63.of_Z (- z)))
  else PrimFloat.of_uint63 (Uint63.of_Z z).

Definition true_div (a b : Z) : PrimFloat.float :=
  PrimFloat.div (of_int a) (of_int b).

Definition value (f : PrimFloat.float) : option Q :=
  match FloatOps.Prim2SF f with
  | SpecFloat.S754_zero _ => Some 0%Q
  | SpecFloat.S754_finite s m e =>
      Some ((if s then -1 else 1) * inject_Z (Zpos m) * Qpower 2 e)%Q
  | _ => None
  end.

End Binary64.

(* ================================================================== *)
(** * LookupTable                                                       *)
(* ================================================================== *)

Module LookupTable.
Local Open Scope string_scope.

(** Dictionaries, in insertion order; assigning to a present key replaces
    its value in place. *)
Section Dict.
Context {K V : Type} (eqb : K -> K -> bool).

Fixpoint dict_get (k : K) (d : list (K * V)) : option V :=
  match d with
  | [] => None
  | (k', v) :: d' => if eqb k' k then Some v else dict_get k d'
  end.

Fixpoint dict_set (k : K) (v : V) (d : list (K * V)) : list (K * V) :=
  match d with
  | [] => [(k, v)]
  | (k', v') :: d' =>
      if eqb k' k then (k', v) :: d' else (k', v') :: dict_set k v d'
  end.

(** [{k: v for k, v in items}] *)
Definition dict_of (items : list (K * V)) : list (K * V) :=
  fold_left (fun d kv => dict_set (fst kv) (snd kv) d) items [].

End Dict.

(** Keys as written in the literal passed to the constructor: a number or
    a string. *)
Inductive literal_key : Type :=
| LNum (q : Q)
| LStr (s : string).

(** Register codes: an integer, or a tuple of integers. *)
Inductive code : Type :=
| CInt (z : Z)
| CTuple (zs : list Z).

Definition code_eqb (a b : code) : bool :=
  match a, b with
  | CInt x, CInt y => Z.eqb x y
  | CTuple xs, CTuple ys =>
      (Nat.eqb (List.length xs) (List.length ys))
      && forallb (fun p => Z.eqb (fst p) (snd p)) (combine xs ys)
  | _, _ => false
  end.

(** One table of the literal: its optional ['unit'], ['type'] and
    ['values'] entries. *)
Record table_literal : Type := mk_literal {
  lit_unit : option string;
  lit_type : option string;
  lit_values : option (list (literal_key * code))
}.

Section WithFloat.
Context {F : PyFloat}.

(** Keys of a built table: floats in numeric tables, strings in the others. *)
Inductive key : Type :=
| KFloat (x : float)
| KStr (s : string).

Definition key_eqb (a b : key) : bool :=
  match a, b with
  | KFloat x, KFloat y => float_eqb x y
  | KStr x, KStr y => String.eqb x y
  | _, _ => false
  end.

(** A table after construction. *)
Record table : Type := mk_table {
  type : string;
  unit : option string;
  values : list (key * code);
  reversed : list (code * key)
}.

(** The object: [self.allData]. *)
Record t : Type := mk { allData : list (string * table) }.

Definition metricScalars : list (string * Z) :=
  [("m", -3); ("u", -6); ("n", -9); ("p", -12);
   ("k", 3); ("M", 6); ("G", 9); ("T", 12)].

(** [k.lower().replace(' ', '')] *)
Definition normalize (s : string) : string := PyStr.remove " " (PyStr.lower s).

(** ** [__init__] *)

(** [{float(k): v for k, v in values.items()}] *)
Fixpoint numeric_items (items : list (literal_key * code))
  : result (list (key * code)) :=
  match items with
  | [] => Ok []
  | (LNum q, v) :: rest =>
      rbind (numeric_items rest) (fun r => Ok ((KFloat (float_of_num q), v) :: r))
  | (LStr s, v) :: rest =>
      match float_of_str s with
      | Some x => rbind (numeric_items rest) (fun r => Ok ((KFloat x, v) :: r))
      | None => Raise (ValueError "could not convert string to float")
      end
  end.

(** [{k.lower().replace(' ', ''): v for k, v in values.items()
      if type(k) == str}] *)
Fixpoint word_items (items : list (literal_key * code)) : list (key * code) :=
  match items with
  | [] => []
  | (LStr s, v) :: rest => (KStr (normalize s), v) :: word_items rest
  | (LNum _, _) :: rest => word_items rest
  end.

(** Values left as they are (any other ['type']). *)
Definition plain_items (items : list (literal_key * code)) : list (key * code) :=
  map (fun kv => match fst kv with
                 | LNum q => (KFloat (float_of_num q), snd kv)
                 | LStr s => (KStr s, snd kv)
                 end) items.

(** The body of the loop over the tables. *)
Definition build_table (name : string) (l : table_literal) : result table :=
  match lit_values l with
  | None =>
      Raise (RuntimeError (String.append "Lookup table "
                             (String.append name " missing values.")))
  | Some items =>
      let ty := match lit_type l with Some ty => ty | None => "numeric"%string end in
      rbind
        (if String.eqb ty "numeric" then
           rbind (numeric_items items) (fun r => Ok (dict_of key_eqb r))
         else if String.eqb ty "word" then Ok (dict_of key_eqb (word_items items))
         else Ok (dict_of key_eqb (plain_items items)))
        (fun vals =>
           Ok (mk_table ty (lit_unit l) vals
                 (dict_of code_eqb (map (fun kv => (snd kv, fst kv)) vals))))
  end.

Fixpoint build_tables (d : list (string * table_literal))
  : result (list (string * table)) :=
  match d with
  | [] => Ok []
  | (name, l) :: rest =>
      rbind (build_table name l) (fun tb =>
      rbind (build_tables rest) (fun r => Ok ((name, tb) :: r)))
  end.

(** The keys of [content] are strings here, so the filter
    [if type(k) == str] keeps them all. *)
Definition __init__ (content : list (string * table_literal)) : result t :=
  let allData :=
    dict_of String.eqb (map (fun kv => (normalize (fst kv), snd kv)) content) in
  rbind (build_tables allData) (fun d => Ok (mk d)).

(** ** [lookup] *)

(** The numeric branch of [lookup], in three steps. *)

(** Remove the unit, in its plural forms first. *)
Definition strip_unit (tbl : table) (k : string) : result string :=
  match unit tbl with
  | Some u =>
      rbind (PyStr.last u) (fun u_last =>
      let k := PyStr.remove (String.append u (String.append u_last "es")) k in
      let k := PyStr.remove (String.append u "es") k in
      let k := PyStr.remove (String.append u "s") k in
      let k := PyStr.remove u k in
      Ok k)
  | None => Ok k
  end.

(** Split off a metric prefix letter: the power of ten and the numeral. *)
Definition split_prefix (k : string) : result (Z * string) :=
  rbind (PyStr.last k) (fun k_last =>
  match dict_get String.eqb k_last metricScalars with
  | Some scalar => Ok (scalar, PyStr.drop_last k)
  | None => Ok (0, k)
  end).

(** [float(key) * 10 ** scalar], with [ValueError] turned into
    [RuntimeError]. *)
Definition scaled_float (scalar : Z) (numeral : string) : result key :=
  match float_of_str numeral with
  | Some x => Ok (KFloat (float_scale x scalar))
  | None =>
      Raise (RuntimeError (String.append "Key "
                             (String.append numeral " is not a valid number.")))
  end.

Definition numeric_key (tbl : table) (k : string) : result key :=
  rbind (strip_unit tbl k) (fun k =>
  rbind (split_prefix k) (fun p =>
  scaled_float (fst p) (snd p))).

Definition KEY_NOT_FOUND : string := "Key not found in lookup table.".

Definition lookup (self : t) (table : string) (k : option string)
  : result code :=
  let table := normalize table in
  match dict_get String.eqb table (allData self) with
  | None =>
      Raise (RuntimeError (String.append "Lookup table "
                             (String.append table " not found.")))
  | Some tbl =>
      match k with
      | None => Raise (RuntimeError "Blank key.")
      | Some k =>
          if String.eqb k EmptyString then Raise (RuntimeError "Blank key.")
          else
            let k := normalize k in
            rbind
              (if String.eqb (type tbl) "numeric" then numeric_key tbl k
               else Ok (KStr k))
              (fun k =>
                 match dict_get key_eqb k (values tbl) with
                 | Some c => Ok c
                 | None => Raise (RuntimeError KEY_NOT_FOUND)
                 end)
      end
  end.

(** ** [getkey]

    After the membership test [table] is still the name, a string, so
    [table['reversed']] raises [TypeError] before any dictionary is
    consulted. *)
Definition getkey (self : t) (table : string) (c : code) : result key :=
  let table := PyStr.strip (PyStr.lower table) in
  match dict_get String.eqb table (allData self) with
  | None =>
      Raise (RuntimeError (String.append "Lookup table "
                             (String.append table " not found.")))
  | Some _ => Raise (TypeError "string indices must be integers")
  end.

(** ** [Accelerometer.opts] *)
Definition opts_literal : list (string * table_literal) :=
  [("data rate",
    mk_literal (Some "hz"%string) None (Some
      [(LNum 0.78, CInt 0x01); (LNum 1.5, CInt 0x02); (LNum 3.1, CInt 0x03);
       (LNum 6.25, CInt 0x04); (LNum 12.5, CInt 0x05); (LNum 25, CInt 0x06);
       (LNum 50, CInt 0x07); (LNum 100, CInt 0x08); (LNum 200, CInt 0x09);
       (LNum 400, CInt 0x0a); (LNum 800, CInt 0x0b); (LNum 1600, CInt 0x0c)]));
   ("bandwidth",
    mk_literal (Some "sample"%string) None (Some
      [(LNum 1, CInt 0x00); (LNum 2, CInt 0x01); (LNum 4, CInt 0x02);
       (LNum 8, CInt 0x03); (LNum 16, CInt 0x04); (LNum 32, CInt 0x05);
       (LNum 64, CInt 0x06); (LNum 128, CInt 0x07)]));
   ("acceleration range",
    mk_literal (Some "g"%string) None (Some
      [(LNum 2, CInt 0x00); (LNum 4, CInt 0x01); (LNum 8, CInt 0x02);
       (LNum 16, CInt 0x03)]));
   ("cmd",
    mk_literal None (Some "word"%string) (Some
      [(LStr "nvmProg", CInt 0xA0); (LStr "fifoFlush", CInt 0xB0);
       (LStr "softReset", CInt 0xB6)]));
   ("features",
    mk_literal None (Some "multiword"%string) (Some
      [(LStr "step counter", CTuple [0x3B; 0x04]);
       (LStr "activity detection", CTuple [0x3B; 0x08]);
       (LStr "tilt detection", CTuple [0x40; 0x01]);
       (LStr "single tap detection", CTuple [0x3C; 0x01]);
       (LStr "double tap detection", CTuple [0x3E; 0x01])]))].

(** The class attribute [opts]; building it from numeric literals cannot
    raise, so the empty table of the error branch is never used. *)
Definition opts : t :=
  match __init__ opts_literal with
  | Ok o => o
  | _ => mk []
  end.

End WithFloat.

End LookupTable.

(* ================================================================== *)
(** * Display: the e-paper controller driver                            *)
(* ================================================================== *)

Module Display.

(** ** Class constants *)

Definition DELAY : Z := 0x80.
Definition WIDTH : Z := 200.
Definition HEIGHT : Z := 200.
Definition X_OFFSET : Z := 0.
Definition Y_OFFSET : Z := 0.

Definition EVEN_FIRST : Z := 0x0.
Definition NO_INTERLACE : Z := 0x0.
Definition SCAN_FORWARD : Z := 0x0.

Definition WHITE_BORDER : Z := 0x01.
Definition BLACK_BORDER : Z := 0x00.
Definition INTERNAL_SENSOR : Z := 0x80.

Definition RED_DISABLE : Z := 0x40.
Definition RED_INVERT : Z := 0x80.
Definition BLACK_ENABLE : Z := 0x00.
Definition BLACK_INVERT : Z := 0x08.

Definition Y_FORWARDS : Z := 0x02.
Definition X_FORWARDS : Z := 0x01.
Definition RIGHT_THEN_DOWN : Z := 0x00.

Definition U_CLOCK_ON : Z := 0x80.
Definition U_ANALOG_ON : Z := 0x40.
Definition U_LOAD_TEMP : Z := 0x20.
Definition U_LOAD_LUT : Z := 0x10.
Definition U_DISP_MODE_1 : Z := 0x00.
Definition U_DISP_MODE_2 : Z := 0x08.
Definition U_OUTPUT : Z := 0x04.
Definition U_ANALOG_OFF : Z := 0x02.
Definition U_CLOCK_OFF : Z := 0x01.
Definition U_DISPLAY : Z := Z.lor U_OUTPUT U_LOAD_LUT.

Definition SLOW_UPDATE_TIME : Q := 5.0.
Definition FAST_UPDATE_TIME : Q := 0.2.

Definition GATE_SETTINGS : Z := Z.lor (Z.lor EVEN_FIRST NO_INTERLACE) SCAN_FORWARD.
Definition ENTRY_MODE : Z := Z.lor (Z.lor X_FORWARDS Y_FORWARDS) RIGHT_THEN_DOWN.

Definition SLOW_UPDATE : Z :=
  Z.lor (Z.lor (Z.lor (Z.lor (Z.lor (Z.lor U_CLOCK_ON U_ANALOG_ON) U_LOAD_TEMP)
    U_DISPLAY) U_DISP_MODE_1) U_CLOCK_OFF) U_ANALOG_OFF.
Definition FAST_UPDATE : Z :=
  Z.lor (Z.lor (Z.lor (Z.lor U_CLOCK_ON U_ANALOG_ON) U_LOAD_TEMP) U_DISPLAY)
    U_DISP_MODE_2.

Definition CMD_GATE_SETTING : Z := 0x01.
Definition CMD_ENTRY_MODE : Z := 0x11.
Definition CMD_SOFT_RESET : Z := 0x12.
Definition CMD_TEMP_SENSOR : Z := 0x18.
Definition CMD_PANEL_COLOURS : Z := 0x21.
Definition CMD_MASTER_ACTIVATE : Z := 0x20.
Definition CMD_UPDATE_SEQUENCE : Z := 0x22.
Definition CMD_BORDER_WAVEFORM : Z := 0x3C.
Definition CMD_X_WINDOW : Z := 0x44.
Definition CMD_Y_WINDOW : Z := 0x45.
Definition CMD_X_OFFSET : Z := 0x4E.
Definition CMD_Y_OFFSET : Z := 0x4F.

(** ** The display hardware

    [self.display] is CircuitPython's e-paper object.  The driver calls
    [update_refresh_mode(sequence, delay)] and [refresh()] on it; the latter
    raises [RuntimeError] while the controller is busy.  The hardware is
    modelled by the history of those calls (most recent first) and an oracle
    telling, from the history, whether the next [refresh()] finds it busy. *)
Inductive hw_event : Type :=
| UpdateRefreshMode (sequence : list Z) (delay : Q)
| RefreshBusy
| RefreshDone.

Definition hw_oracle : Type := list hw_event -> bool.

(** ** Driver state: the instance attributes of [Display] *)
Record t : Type := mk {
  _darkMode : bool;
  _greyMode : bool;
  _invertBorder : bool;
  _fastRefresh : bool;
  _fullRefresh : bool;
  _initialRefresh : bool;
  COLOUR_MODE : Z;
  BORDER_WAVEFORM : Z;
  UPDATE_MODE : Z;
  frameDelay : Q;
  FIRST_COLUMN : Z;
  LAST_COLUMN : Z;
  FIRST_ROW : Z;
  LAST_ROW : Z;
  X_WINDOW_START : Z;
  X_WINDOW_END : Z;
  Y_WINDOW_START : Z;
  Y_WINDOW_END : Z;
  modeChanged : bool;
  updateSequence : option (list Z);  (* unset until the first rebuild *)
  display : list hw_event
}.

Definition with_darkMode (v : bool) (s : t) : t :=
  mk v (_greyMode s) (_invertBorder s) (_fastRefresh s) (_fullRefresh s)
     (_initialRefresh s) (COLOUR_MODE s) (BORDER_WAVEFORM s) (UPDATE_MODE s)
     (frameDelay s) (FIRST_COLUMN s) (LAST_COLUMN s) (FIRST_ROW s) (LAST_ROW s)
     (X_WINDOW_START s) (X_WINDOW_END s) (Y_WINDOW_START s) (Y_WINDOW_END s)
     (modeChanged s) (updateSequence s) (display s).

Definition with_greyMode (v : bool) (s : t) : t :=
  mk (_darkMode s) v (_invertBorder s) (_fastRefresh s) (_fullRefresh s)
     (_initialRefresh s) (COLOUR_MODE s) (BORDER_WAVEFORM s) (UPDATE_MODE s)
     (frameDelay s) (FIRST_COLUMN s) (LAST_COLUMN s) (FIRST_ROW s) (LAST_ROW s)
     (X_WINDOW_START s) (X_WINDOW_END s) (Y_WINDOW_START s) (Y_WINDOW_END s)
     (modeChanged s) (updateSequence s) (display s).

Definition with_invertBorder (v : bool) (s : t) : t :=
  mk (_darkMode s) (_greyMode s) v (_fastRefresh s) (_fullRefresh s)
     (_initialRefresh s) (COLOUR_MODE s) (BORDER_WAVEFORM s) (UPDATE_MODE s)
     (frameDelay s) (FIRST_COLUMN s) (LAST_COLUMN s) (FIRST_ROW s) (LAST_ROW s)
     (X_WINDOW_START s) (X_WINDOW_END s) (Y_WINDOW_START s) (Y_WINDOW_END s)
     (modeChanged s) (updateSequence s) (display s).

Definition with_fastRefresh (v : bool) (s : t) : t :=
  mk (_darkMode s) (_greyMode s) (_invertBorder s) v (_fullRefresh s)
     (_initialRefresh s) (COLOUR_MODE s) (BORDER_WAVEFORM s) (UPDATE_MODE s)
     (frameDelay s) (FIRST_COLUMN s) (LAST_COLUMN s) (FIRST_ROW s) (LAST_ROW s)
     (X_WINDOW_START s) (X_WINDOW_END s) (Y_WINDOW_START s) (Y_WINDOW_END s)
     (modeChanged s) (updateSequence s) (display s).

Definition with_fullRefresh (v : bool) (s : t) : t :=
  mk (_darkMode s) (_greyMode s) (_invertBorder s) (_fastRefresh s) v
     (_initialRefresh s) (COLOUR_MODE s) (BORDER_WAVEFORM s) (UPDATE_MODE s)
     (frameDelay s) (FIRST_COLUMN s) (LAST_COLUMN s) (FIRST_ROW s) (LAST_ROW s)
     (X_WINDOW_START s) (X_WINDOW_END s) (Y_WINDOW_START s) (Y_WINDOW_END s)
     (modeChanged s) (updateSequence s) (display s).

Definition with_initialRefresh (v : bool) (s : t) : t :=
  mk (_darkMode s) (_greyMode s) (_invertBorder s) (_fastRefresh s)
     (_fullRefresh s) v (COLOUR_MODE s) (BORDER_WAVEFORM s) (UPDATE_MODE s)
     (frameDelay s) (FIRST_COLUMN s) (LAST_COLUMN s) (FIRST_ROW s) (LAST_ROW s)
     (X_WINDOW_START s) (X_WINDOW_END s) (Y_WINDOW_START s) (Y_WINDOW_END s)
     (modeChanged s) (updateSequence s) (display s).

Definition with_COLOUR_MODE (v : Z) (s : t) : t :=
  mk (_darkMode s) (_greyMode s) (_invertBorder s) (_fastRefresh s)
     (_fullRefresh s) (_initialRefresh s) v (BORDER_WAVEFORM s) (UPDATE_MODE s)
     (frameDelay s) (FIRST_COLUMN s) (LAST_COLUMN s) (FIRST_ROW s) (LAST_ROW s)
     (X_WINDOW_START s) (X_WINDOW_END s) (Y_WINDOW_START s) (Y_WINDOW_END s)
     (modeChanged s) (updateSequence s) (display s).

Definition with_BORDER_WAVEFORM (v : Z) (s : t) : t :=
  mk (_darkMode s) (_greyMode s) (_invertBorder s) (_fastRefresh s)
     (_fullRefresh s) (_initialRefresh s) (COLOUR_MODE s) v (UPDATE_MODE s)
     (frameDelay s) (FIRST_COLUMN s) (LAST_COLUMN s) (FIRST_ROW s) (LAST_ROW s)
     (X_WINDOW_START s) (X_WINDOW_END s) (Y_WINDOW_START s) (Y_WINDOW_END s)
     (modeChanged s) (updateSequence s) (display s).

Definition with_UPDATE_MODE (v : Z) (d : Q) (s : t) : t :=
  mk (_darkMode s) (_greyMode s) (_invertBorder s) (_fastRefresh s)
     (_fullRefresh s) (_initialRefresh s) (COLOUR_MODE s) (BORDER_WAVEFORM s) v
     d (FIRST_COLUMN s) (LAST_COLUMN s) (FIRST_ROW s) (LAST_ROW s)
     (X_WINDOW_START s) (X_WINDOW_END s) (Y_WINDOW_START s) (Y_WINDOW_END s)
     (modeChanged s) (updateSequence s) (display s).

Definition with_window (x1 y1 x2 y2 xs xe ys ye : Z) (s : t) : t :=
  mk (_darkMode s) (_greyMode s) (_invertBorder s) (_fastRefresh s)
     (_fullRefresh s) (_initialRefresh s) (COLOUR_MODE s) (BORDER_WAVEFORM s)
     (UPDATE_MODE s) (frameDelay s) x1 x2 y1 y2 xs xe ys ye
     (modeChanged s) (updateSequence s) (display s).

Definition with_modeChanged (v : bool) (s : t) : t :=
  mk (_darkMode s) (_greyMode s) (_invertBorder s) (_fastRefresh s)
     (_fullRefresh s) (_initialRefresh s) (COLOUR_MODE s) (BORDER_WAVEFORM s)
     (UPDATE_MODE s) (frameDelay s) (FIRST_COLUMN s) (LAST_COLUMN s)
     (FIRST_ROW s) (LAST_ROW s) (X_WINDOW_START s) (X_WINDOW_END s)
     (Y_WINDOW_START s) (Y_WINDOW_END s) v (updateSequence s) (display s).

Definition with_updateSequence (v : option (list Z)) (s : t) : t :=
  mk (_darkMode s) (_greyMode s) (_invertBorder s) (_fastRefresh s)
     (_fullRefresh s) (_initialRefresh s) (COLOUR_MODE s) (BORDER_WAVEFORM s)
     (UPDATE_MODE s) (frameDelay s) (FIRST_COLUMN s) (LAST_COLUMN s)
     (FIRST_ROW s) (LAST_ROW s) (X_WINDOW_START s) (X_WINDOW_END s)
     (Y_WINDOW_START s) (Y_WINDOW_END s) (modeChanged s) v (display s).

Definition with_display (v : list hw_event) (s : t) : t :=
  mk (_darkMode s) (_greyMode s) (_invertBorder s) (_fastRefresh s)
     (_fullRefresh s) (_initialRefresh s) (COLOUR_MODE s) (BORDER_WAVEFORM s)
     (UPDATE_MODE s) (frameDelay s) (FIRST_COLUMN s) (LAST_COLUMN s)
     (FIRST_ROW s) (LAST_ROW s) (X_WINDOW_START s) (X_WINDOW_END s)
     (Y_WINDOW_START s) (Y_WINDOW_END s) (modeChanged s) (updateSequence s) v.

(** ** Properties (getters) *)

Definition greyMode (s : t) : bool := _greyMode s.
Definition darkMode (s : t) : bool := _darkMode s.
Definition invertBorder (s : t) : bool := _invertBorder s.
Definition initialRefresh (s : t) : bool := _initialRefresh s.
Definition fastRefresh (s : t) : bool := _fastRefresh s.

(** [return self._fullRefresh or self.initialRefresh] *)
Definition fullRefresh (s : t) : bool := _fullRefresh s || initialRefresh s.

(** ** [_updateColours] *)
Definition _updateColours (s : t) : t :=
  let s :=
    if darkMode s then
      if greyMode s then with_COLOUR_MODE (Z.lor RED_INVERT BLACK_ENABLE) s
      else with_COLOUR_MODE (Z.lor RED_DISABLE BLACK_ENABLE) s
    else
      if greyMode s then with_COLOUR_MODE (Z.lor RED_INVERT BLACK_INVERT) s
      else with_COLOUR_MODE (Z.lor RED_DISABLE BLACK_INVERT) s in
  let s :=
    if xorb (darkMode s) (invertBorder s) then with_BORDER_WAVEFORM 0x00 s
    else with_BORDER_WAVEFORM 0x01 s in
  with_modeChanged true s.

(** ** Property setters *)

Definition set_greyMode (enabled : bool) (s : t) : t :=
  _updateColours (with_greyMode enabled s).

Definition set_darkMode (enabled : bool) (s : t) : t :=
  _updateColours (with_darkMode enabled s).

Definition set_invertBorder (enabled : bool) (s : t) : t :=
  _updateColours (with_invertBorder enabled s).

Definition set_fullRefresh (enabled : bool) (s : t) : t :=
  with_modeChanged true (with_fullRefresh enabled s).

Definition set_initialRefresh (enabled : bool) (s : t) : t :=
  with_modeChanged true (with_initialRefresh enabled s).

Definition set_fastRefresh (enabled : bool) (s : t) : t :=
  let s := with_fastRefresh enabled s in
  let s :=
    if enabled then with_UPDATE_MODE FAST_UPDATE FAST_UPDATE_TIME s
    else with_UPDATE_MODE SLOW_UPDATE SLOW_UPDATE_TIME s in
  with_modeChanged true s.

(** ** [setWindow] and [clearWindow] *)
Definition setWindow (x1 y1 x2 y2 : Z) (s : t) : t :=
  with_modeChanged true
    (with_window x1 y1 x2 y2 (Z.shiftr x1 8) (Z.shiftr x2 8) y1 y2 s).

Definition clearWindow (s : t) : t := setWindow 0 0 WIDTH HEIGHT s.

(** ** [__init__]

    The window attributes start at their class-level values:
    [X_WINDOW_START = FIRST_COLUMN >> 3], [X_WINDOW_END = LAST_COLUMN >> 3].
    Before [_updateColours] and the [fastRefresh] setter run, [COLOUR_MODE],
    [BORDER_WAVEFORM] and [UPDATE_MODE] read their class-level values too. *)
Definition class_defaults (d : list hw_event) : t :=
  let FIRST_COLUMN := X_OFFSET in
  let LAST_COLUMN := X_OFFSET + WIDTH - 1 in
  let FIRST_ROW := Y_OFFSET in
  let LAST_ROW := Y_OFFSET + HEIGHT - 1 in
  mk false false false false false false
     (Z.lor RED_DISABLE BLACK_INVERT) BLACK_BORDER SLOW_UPDATE SLOW_UPDATE_TIME
     FIRST_COLUMN LAST_COLUMN FIRST_ROW LAST_ROW
     (Z.shiftr FIRST_COLUMN 3) (Z.shiftr LAST_COLUMN 3) FIRST_ROW LAST_ROW
     false None d.

Definition __init__ (d : list hw_event) : t :=
  let s := class_defaults d in
  let s := with_darkMode false s in
  let s := with_greyMode false s in
  let s := with_invertBorder false s in
  let s := _updateColours s in
  let s := set_fastRefresh true s in
  let s := with_fullRefresh false s in
  set_initialRefresh true s.

(** ** [_rebuildUpdateSequence] *)

(** [self.updateSequence = bytes([...])] *)
Definition assign_sequence (l : list Z) : M t unit :=
  fun s =>
    match bytes l with
    | Ok b => (Ok tt, with_updateSequence (Some b) s)
    | Raise e => (Raise e, s)
    | Hang => (Hang, s)
    end.

(** [self.updateSequence += bytes([...])] *)
Definition append_sequence (l : list Z) : M t unit :=
  fun s =>
    match bytes l with
    | Ok b =>
        match updateSequence s with
        | Some cur => (Ok tt, with_updateSequence (Some (cur ++ b)) s)
        | None => (Raise (TypeError "updateSequence is unset"), s)
        end
    | Raise e => (Raise e, s)
    | Hang => (Hang, s)
    end.

(** The partial-update LUT override appended for a fast, non-full refresh. *)
Definition LUT_BLOCK : list Z :=
  [0x37; 10; 0x00; 0xFF; 0xFF; 0xFF; 0xFF; 0x0F; 0x00; 0x00; 0x00; 0x00].

(** The two ghost-suppression blocks (light mode, dark mode). *)
Definition GHOST_LIGHT_BLOCK : list Z :=
  [0x0C; 4; 0xFB; 0x89; 0xF6; 0x0F;
   0x04; 3; 0x4B; 0xF0; 0x0A;
   0x03; 1; 0x12].
Definition GHOST_DARK_BLOCK : list Z :=
  [0x03; 1; 0x10;
   0x04; 3; 0x4B; 0xF0; 0x0A;
   0x0C; 4; 0xFB; 0x89; 0xF6; 0x35].

(** The second pass of a fast refresh: alternate colours, update, activate,
    original colours, update. *)
Definition flash_block (altColour colourMode updateMode : Z) : list Z :=
  [CMD_PANEL_COLOURS; 2; altColour; 0x00;
   CMD_UPDATE_SEQUENCE; 1; updateMode;
   CMD_MASTER_ACTIVATE; 0;
   CMD_PANEL_COLOURS; 2; colourMode; 0x00;
   CMD_UPDATE_SEQUENCE; 1; updateMode].

(** The opening commands: reset, gate, border, temperature sensor, panel
    colours and entry mode. *)
Definition header_block (s : t) : list Z :=
  [CMD_SOFT_RESET; DELAY; 20;
   CMD_GATE_SETTING; 3;
     Z.land (WIDTH - 1) 0xFF;
     Z.land (Z.shiftr (WIDTH - 1) 8) 0xFF;
     GATE_SETTINGS;
   CMD_BORDER_WAVEFORM; 1; BORDER_WAVEFORM s;
   CMD_TEMP_SENSOR; 1; INTERNAL_SENSOR;
   CMD_PANEL_COLOURS; 2; COLOUR_MODE s; 0x00;
   CMD_ENTRY_MODE; 1; ENTRY_MODE].

(** The window, the offsets and the update-sequence-control command. *)
Definition window_block (s : t) (updateMode : Z) : list Z :=
  [CMD_X_WINDOW; 2;
     X_WINDOW_START s;
     X_WINDOW_END s;
   CMD_Y_WINDOW; 4;
     Z.land (Y_WINDOW_START s) 0xFF;
     Z.land (Z.shiftr (Y_WINDOW_START s) 8) 0xFF;
     Z.land (Y_WINDOW_END s) 0xFF;
     Z.land (Z.shiftr (Y_WINDOW_END s) 8) 0xFF;
   CMD_X_OFFSET; 1; X_OFFSET;
   CMD_Y_OFFSET; 2;
     Z.land Y_OFFSET 0xFF;
     Z.land (Z.shiftr Y_OFFSET 8) 0xFF;
   CMD_UPDATE_SEQUENCE; 1; updateMode].

(** [altColour] of the second pass. *)
Definition alt_colour (s : t) : Z :=
  if greyMode s then COLOUR_MODE s
  else if darkMode s then Z.lor RED_INVERT BLACK_INVERT
  else Z.lor RED_INVERT BLACK_ENABLE.

(** [self.display.update_refresh_mode(self.updateSequence, self.frameDelay)] *)
Definition update_refresh_mode : M t unit :=
  s <- get ;;
  match updateSequence s with
  | Some sq =>
      modify (with_display (UpdateRefreshMode sq (frameDelay s) :: display s))
  | None => raise (TypeError "updateSequence is unset")
  end.

(** The local [updateMode] chosen at the top of [_rebuildUpdateSequence]. *)
Definition updateMode (s : t) : Z :=
  if initialRefresh s then SLOW_UPDATE else UPDATE_MODE s.

Definition _rebuildUpdateSequence : M t unit :=
  s <- get ;;
  let updateMode := updateMode s in
  assign_sequence (header_block s) ;;;
  when (fastRefresh s && negb (fullRefresh s))
    (append_sequence LUT_BLOCK) ;;;
  when (negb (fullRefresh s))
    (if negb (darkMode s) then append_sequence GHOST_LIGHT_BLOCK
     else append_sequence GHOST_DARK_BLOCK) ;;;
  append_sequence (window_block s updateMode) ;;;
  when (fastRefresh s && negb (fullRefresh s))
    (append_sequence (flash_block (alt_colour s) (COLOUR_MODE s) updateMode)) ;;;
  update_refresh_mode ;;;
  modify (with_modeChanged false).

(** ** [refresh]

    [time.sleep] calls only pass time and are left out.  The retry loop
    [while True: try: self.display.refresh() ... else: break] has no bound in
    the source; here it runs on [fuel] attempts and gives [Hang] when the
    controller is still busy after them. *)
Fixpoint refresh_loop (busy : hw_oracle) (fuel : nat) : M t unit :=
  match fuel with
  | O => fun s => (Hang, s)
  | S fuel' =>
      s <- get ;;
      if busy (display s) then
        modify (fun s => with_display (RefreshBusy :: display s) s) ;;;
        refresh_loop busy fuel'
      else
        modify (fun s => with_display (RefreshDone :: display s) s)
  end.

Definition refresh (busy : hw_oracle) (fuel : nat) : M t unit :=
  s <- get ;;
  when (modeChanged s) _rebuildUpdateSequence ;;;
  refresh_loop busy fuel ;;;
  s <- get ;;
  when (initialRefresh s) (modify (set_initialRefresh false)).

(** ** Reading a command sequence

    CircuitPython's sequence format, as the comment on [DELAY] describes it:
    a command byte, a length byte whose top bit asks for a delay, that many
    parameter bytes, and, when the top bit was set, one byte of delay. *)
Record command : Type := mkcmd {
  cmd_code : Z;
  cmd_params : list Z;
  cmd_delay : option Z
}.

Fixpoint commands_fuel (fuel : nat) (sq : list Z) : list command :=
  match fuel with
  | O => []
  | S fuel' =>
      match sq with
      | c :: len :: rest =>
          let n := Z.to_nat (Z.land len 0x7F) in
          let params := firstn n rest in
          let rest := skipn n rest in
          if Z.testbit len 7 then
            match rest with
            | d :: rest' => mkcmd c params (Some d) :: commands_fuel fuel' rest'
            | [] => [mkcmd c params None]
            end
          else mkcmd c params None :: commands_fuel fuel' rest
      | _ => []
      end
  end.

Definition commands (sq : list Z) : list command :=
  commands_fuel (List.length sq) sq.

(** The parameter lists of all commands with the given code, in order. *)
Definition params_of (code : Z) (sq : list Z) : list (list Z) :=
  map cmd_params (filter (fun c => cmd_code c =? code) (commands sq)).

(** ** Callers of the driver

    What application code does with a [Display] between construction and
    power-off: it assigns the mode properties, moves the window, asks for a
    refresh, or (as [Watchy.finish] does) rebuilds the sequence directly.  A
    caller that catches an exception carries on with the object as the failed
    call left it; a call that hangs never returns. *)
Inductive call : Type :=
| SetDarkMode (enabled : bool)
| SetGreyMode (enabled : bool)
| SetInvertBorder (enabled : bool)
| SetFastRefresh (enabled : bool)
| SetFullRefresh (enabled : bool)
| SetWindow (x1 y1 x2 y2 : Z)
| ClearWindow
| Rebuild
| Refresh.

Definition do_call (busy : hw_oracle) (fuel : nat) (c : call) : M t unit :=
  match c with
  | SetDarkMode b => modify (set_darkMode b)
  | SetGreyMode b => modify (set_greyMode b)
  | SetInvertBorder b => modify (set_invertBorder b)
  | SetFastRefresh b => modify (set_fastRefresh b)
  | SetFullRefresh b => modify (set_fullRefresh b)
  | SetWindow x1 y1 x2 y2 => modify (setWindow x1 y1 x2 y2)
  | ClearWindow => modify clearWindow
  | Rebuild => _rebuildUpdateSequence
  | Refresh => refresh busy fuel
  end.

Fixpoint run (busy : hw_oracle) (fuel : nat) (cs : list call) (s : t)
  : option t :=
  match cs with
  | [] => Some s
  | c :: cs' =>
      match do_call busy fuel c s with
      | (Hang, _) => None
      | (_, s') => run busy fuel cs' s'
      end
  end.

(** ** Observations on the hardware history *)

(** The sequence the controller currently holds: the argument of the latest
    [update_refresh_mode]. *)
Fixpoint loaded (h : list hw_event) : option (list Z) :=
  match h with
  | [] => None
  | UpdateRefreshMode sq _ :: _ => Some sq
  | _ :: h' => loaded h'
  end.


(** The cached attributes agree with the flags they are computed from, as
    [_updateColours] and the [fastRefresh] setter leave them. *)
Definition consistent (s : t) : Prop :=
  COLOUR_MODE s = COLOUR_MODE (_updateColours s) /\
  BORDER_WAVEFORM s = BORDER_WAVEFORM (_updateColours s) /\
  UPDATE_MODE s = UPDATE_MODE (set_fastRefresh (fastRefresh s) s).

(** The bytes a successful rebuild leaves in [updateSequence]. *)
Definition sequence_of (s : t) : list Z :=
  let updateMode := updateMode s in
  header_block s
  ++ (if fastRefresh s && negb (fullRefresh s) then LUT_BLOCK else [])
  ++ (if negb (fullRefresh s) then
        if negb (darkMode s) then GHOST_LIGHT_BLOCK else GHOST_DARK_BLOCK
      else [])
  ++ window_block s updateMode
  ++ (if fastRefresh s && negb (fullRefresh s) then
        flash_block (alt_colour s) (COLOUR_MODE s) updateMode
      else []).


(** What [_rebuildUpdateSequence] builds from a state: its outcome and the
    [updateSequence] attribute it leaves. *)
Definition built (s : t) : result unit * option (list Z) :=
  let r := _rebuildUpdateSequence s in (fst r, updateSequence (snd r)).




(** The controller is busy for the next [n] attempts and free at the one
    after. *)
Fixpoint busy_attempts (busy : hw_oracle) (n : nat) (h : list hw_event)
  : Prop :=
  match n with
  | O => busy h = false
  | S n' => busy h = true /\ busy_attempts busy n' (RefreshBusy :: h)
  end.


Definition busy_twice : hw_oracle :=
  fun h =>
    match h with
    | RefreshBusy :: RefreshBusy :: _ => false
    | _ => true
    end.


(** A controller that is never busy. *)
Definition never_busy : hw_oracle := fun _ => false.

End Display.

(* ================================================================== *)
(** * Accelerometer: the BMA423 register driver                         *)
(* ================================================================== *)

Module Accelerometer.

Definition _MAX_TRANSFER_LENGTH : Z := 8.
Definition _BMA423_ID : Z := 0x13.

(** ** The bus

    Every register access is an I2C transaction with the chip.  The driver
    state is the history of transactions and delays (most recent first); the
    chip is an oracle that answers a read of [n] bytes at a register from the
    history so far.  Whatever the oracle says is cut or padded to [n] bytes
    and reduced to byte values, as a bus transfer delivers them. *)
Inductive bus_event : Type :=
| BusRead (register : Z) (data : list Z)
| BusWrite (register : Z) (data : list Z)
| Delay (microseconds : Z).

Definition bus : Type := list bus_event.
Definition bus_oracle : Type := bus -> Z -> nat -> list Z.

Definition response (device : bus_oracle) (h : bus) (register : Z) (n : nat)
  : list Z :=
  map (fun b => Z.land b 0xFF) (firstn n (device h register n ++ repeat 0 n)).

(** ** Register descriptors of [adafruit_register]

    [RWBit]/[ROBit] (one bit of a one-byte register), [RWBits]/[ROBits]
    (a bit field of a little-endian register of [register_width] bytes),
    [UnaryStruct] with format ['B'] and [Struct] with format ['B' * n]. *)
Record Bit : Type := mk_bit {
  bit_register_address : Z;
  bit : Z
}.

Record Bits : Type := mk_bits {
  num_bits : Z;
  register_address : Z;
  lowest_bit : Z;
  register_width : nat;
  signed : bool
}.

Definition bit_mask (b : Bits) : Z :=
  Z.shiftl (Z.shiftl 1 (num_bits b) - 1) (lowest_bit b).

Definition sign_bit (b : Bits) : Z :=
  if signed b then Z.shiftl 1 (num_bits b - 1) else 0.

(** [for i in order: reg = (reg << 8) | self.buffer[i]], least significant
    byte first in the buffer. *)
Definition le_value (data : list Z) : Z :=
  fold_right (fun byte acc => Z.lor (Z.shiftl acc 8) byte) 0 data.

(** [for i in reversed(order): self.buffer[i] = reg & 0xFF; reg >>= 8] *)
Fixpoint le_bytes (n : nat) (reg : Z) : list Z :=
  match n with
  | O => []
  | S n' => Z.land reg 0xFF :: le_bytes n' (Z.shiftr reg 8)
  end.

(** [buffer[i] = f(buffer[i])] *)
Fixpoint update_nth (i : nat) (f : Z -> Z) (data : list Z) : list Z :=
  match data, i with
  | [], _ => []
  | byte :: rest, O => f byte :: rest
  | byte :: rest, S i' => byte :: update_nth i' f rest
  end.

(** [RWBit.__get__]: [bool(self.buffer[self.byte] & self.bit_mask)] *)
Definition bit_value (b : Bit) (data : list Z) : bool :=
  negb (Z.land (nth (Z.to_nat (bit b / 8)) data 0) (Z.shiftl 1 (bit b mod 8))
        =? 0).

(** [RWBit.__set__]: [self.buffer[self.byte] |= self.bit_mask] or
    [&= ~self.bit_mask]. *)
Definition bit_update (b : Bit) (value : bool) (data : list Z) : list Z :=
  let mask := Z.shiftl 1 (bit b mod 8) in
  update_nth (Z.to_nat (bit b / 8))
    (fun byte => if value then Z.lor byte mask else Z.land byte (Z.lnot mask))
    data.

(** What [RWBits.__get__] makes of the bytes read: mask, shift, and the
    sign of a signed field. *)
Definition field_value (b : Bits) (data : list Z) : Z :=
  let reg := le_value data in
  let reg := Z.shiftr (Z.land reg (bit_mask b)) (lowest_bit b) in
  if negb (Z.land reg (sign_bit b) =? 0) then reg - 2 * sign_bit b else reg.

(** What [RWBits.__set__] writes back over the bytes read. *)
Definition field_update (b : Bits) (value : Z) (data : list Z) : list Z :=
  let value := Z.shiftl value (lowest_bit b) in
  let reg := le_value data in
  let reg := Z.land reg (Z.lnot (bit_mask b)) in
  let reg := Z.lor reg value in
  le_bytes (register_width b) reg.

Fixpoint list_eqb (a b : list Z) : bool :=
  match a, b with
  | [], [] => true
  | x :: a', y :: b' => (x =? y) && list_eqb a' b'
  | _, _ => false
  end.

(** The least recent first list of the data written to a register. *)
Fixpoint writes_to (register : Z) (h : bus) : list (list Z) :=
  match h with
  | [] => []
  | BusWrite r data :: h' =>
      if r =? register then writes_to register h' ++ [data]
      else writes_to register h'
  | _ :: h' => writes_to register h'
  end.

(** The least recent first list of the data read from a register. *)
Fixpoint reads_of (register : Z) (h : bus) : list (list Z) :=
  match h with
  | [] => []
  | BusRead r data :: h' =>
      if r =? register then reads_of register h' ++ [data]
      else reads_of register h'
  | _ :: h' => reads_of register h'
  end.

(** All writes, whatever the register, least recent first. *)
Fixpoint all_writes (h : bus) : list (Z * list Z) :=
  match h with
  | [] => []
  | BusWrite r data :: h' => all_writes h' ++ [(r, data)]
  | _ :: h' => all_writes h'
  end.

(** The register map (the class attributes used by the modelled methods). *)
Definition _deviceId : Z := 0x00.
Definition _errReg : Z := 0x02.
Definition _auxErr : Bit := mk_bit 0x02 7.
Definition _fifoErr : Bit := mk_bit 0x02 6.
Definition _errorCode : Bits := mk_bits 3 0x02 2 1 false.
Definition _cmdErr : Bit := mk_bit 0x02 1.
Definition _fatalErr : Bit := mk_bit 0x02 0.
Definition _cmdRdy : Bit := mk_bit 0x03 4.
Definition _accX : Bits := mk_bits 12 0x12 4 2 true.
Definition _accY : Bits := mk_bits 12 0x14 4 2 true.
Definition _accZ : Bits := mk_bits 12 0x16 4 2 true.
Definition _statusReg : Z := 0x2A.
Definition _internalStatus : Bits := mk_bits 5 0x2A 0 1 false.
Definition _axesRemapError : Bit := mk_bit 0x2A 5.
Definition _odr50hzError : Bit := mk_bit 0x2A 6.
Definition _odrHighError : Bit := mk_bit 0x2A 7.
Definition _accOdr : Bits := mk_bits 4 0x40 0 1 false.
Definition _accBwp : Bits := mk_bits 3 0x40 4 1 false.
Definition _accPerfMode : Bit := mk_bit 0x40 7.
Definition _accRange : Bits := mk_bits 2 0x41 0 1 false.
Definition _initCtrl : Bits := mk_bits 8 0x59 0 1 false.
Definition _asicLsb : Bits := mk_bits 8 0x5B 0 1 false.
Definition _asicMsb : Bits := mk_bits 8 0x5C 0 1 false.
Definition _featuresIn : Z := 0x5E.
Definition _intErr1 : Bit := mk_bit 0x5F 1.
Definition _intErr2 : Bit := mk_bit 0x5F 2.
Definition _advPowerSave : Bit := mk_bit 0x7C 0.
Definition _accEn : Bit := mk_bit 0x7D 2.
Definition _cmd : Bits := mk_bits 8 0x7E 0 1 false.

(** The physical value of one axis: [(axis + 1) / 2 ** (10 - range)]. *)
Definition scale (axis range : Z) : Q :=
  inject_Z (axis + 1) / inject_Z (2 ^ (10 - range)).

(** The dictionary [acceleration] returns. *)
Record vector : Type := mk_vector { x : Q; y : Q; z : Q }.

(** [config[offset:offset + dataLen]] *)
Definition chunk (config : list Z) (offset : Z) : list Z :=
  firstn (Z.to_nat _MAX_TRANSFER_LENGTH) (skipn (Z.to_nat offset) config).

(** [range(0, stop, step)] for a positive step. *)
Definition range_step (stop step : Z) : list Z :=
  map (fun i => Z.of_nat i * step)
      (seq 0 (Z.to_nat ((stop + step - 1) / step))).

Section Driver.
Context {F : PyFloat} (device : bus_oracle).
Local Open Scope string_scope.

(** [i2c.write_then_readinto(buffer, buffer, out_end=1, in_start=1)] *)
Definition read_register (register : Z) (n : nat) : M bus (list Z) :=
  fun h =>
    let data := response device h register n in
    (Ok data, BusRead register data :: h).

(** [i2c.write(buffer)] *)
Definition write_register (register : Z) (data : list Z) : M bus unit :=
  fun h => (Ok tt, BusWrite register data :: h).

(** [time.sleep] and [microcontroller.delay_us], in microseconds. *)
Definition delay_us (us : Z) : M bus unit :=
  fun h => (Ok tt, Delay us :: h).

Definition get_bit (b : Bit) : M bus bool :=
  data <- read_register (bit_register_address b) 1 ;;
  ret (bit_value b data).

Definition set_bit (b : Bit) (value : bool) : M bus unit :=
  data <- read_register (bit_register_address b) 1 ;;
  write_register (bit_register_address b) (bit_update b value data).

Definition get_bits (b : Bits) : M bus Z :=
  data <- read_register (register_address b) (register_width b) ;;
  ret (field_value b data).

Definition set_bits (b : Bits) (value : Z) : M bus unit :=
  data <- read_register (register_address b) (register_width b) ;;
  write_register (register_address b) (field_update b value data).

(** Assigning a looked-up code to a bit field: [value <<= lowest_bit] comes
    first and fails on a tuple. *)
Definition set_bits_code (b : Bits) (c : LookupTable.code) : M bus unit :=
  match c with
  | LookupTable.CInt v => set_bits b v
  | LookupTable.CTuple _ => raise (TypeError "unsupported operand type(s) for <<=")
  end.

Definition get_unary (register : Z) : M bus Z :=
  data <- read_register register 1 ;;
  ret (nth 0 data 0).

Definition get_struct (register : Z) (n : nat) : M bus (list Z) :=
  read_register register n.

(** [struct.pack_into('B' * n, buffer, 1, *value)] then [i2c.write]. *)
Definition set_struct (register : Z) (n : nat) (value : list Z) : M bus unit :=
  if Nat.eqb (List.length value) n && forallb is_byte value
  then write_register register value
  else raise (StructError "pack_into: wrong number or range of values").

(** ** [_runCmd]

    The two [while not self._cmdRdy] loops poll without bound; here they
    poll at most [fuel] times and hang after that. *)
Fixpoint wait_cmdRdy (fuel : nat) : M bus unit :=
  match fuel with
  | O => fun h => (Hang, h)
  | S fuel' =>
      rdy <- get_bit _cmdRdy ;;
      if rdy then ret tt
      else delay_us 1000 ;;; wait_cmdRdy fuel'
  end.

Definition _runCmd (fuel : nat) (cmd : string) : M bus unit :=
  when (negb (String.eqb cmd "softReset")) (wait_cmdRdy fuel) ;;;
  c <- lift (LookupTable.lookup LookupTable.opts "cmd" (Some cmd)) ;;
  set_bits_code _cmd c ;;;
  delay_us 10000 ;;;
  wait_cmdRdy fuel.

(** ** [_featureAddress] *)
Definition get_featureAddress : M bus Z :=
  lsb <- get_bits _asicLsb ;;
  msb <- get_bits _asicMsb ;;
  ret (Z.lor (Z.land lsb 0x0F) (Z.shiftl msb 4) * 2)%Z.

Definition set_featureAddress (value : Z) : M bus unit :=
  if ((value <? 0) || (value >? 0x2000 - _MAX_TRANSFER_LENGTH))%Z
  then raise (ValueError "ACCEL: Invalid feature address")
  else
    set_bits _asicLsb (Z.land (Z.shiftr value 1) 0x0F) ;;;
    set_bits _asicMsb (Z.shiftr value 5).

(** ** [lowPowerMode] *)
Definition get_lowPowerMode : M bus bool :=
  a <- get_bit _advPowerSave ;;
  if a then p <- get_bit _accPerfMode ;; ret (negb p)
  else ret false.

Definition set_lowPowerMode (value : bool) : M bus unit :=
  set_bit _advPowerSave value ;;;
  delay_us 450 ;;;
  set_bit _accPerfMode (negb value).

(** ** [error] and [errorMessage] *)
Definition error : M bus bool :=
  e <- get_unary _errReg ;;
  if negb (Z.land e 0xDF =? 0)%Z then ret true else
  st <- get_unary _statusReg ;;
  if negb (st =? 0x01)%Z then ret true else
  i1 <- get_bit _intErr1 ;;
  if i1 then ret true else
  get_bit _intErr2.

(** [if flag: errors += text] *)
Definition add_if (flag : bool) (text errors : string) : string :=
  if flag then errors ++ text else errors.

Definition errorMessage : M bus string :=
  err <- error ;;
  if negb err then ret "No error." else
  let errors := EmptyString in
  f <- get_bit _auxErr ;;
  let errors := add_if f "Auxiliary sensor error. " errors in
  f <- get_bit _fifoErr ;;
  let errors := add_if f "FIFO error. " errors in
  f <- get_bit _cmdErr ;;
  let errors := add_if f "Command error. " errors in
  f <- get_bit _fatalErr ;;
  let errors := add_if f "Fatal error. " errors in
  c <- get_bits _errorCode ;;
  let errors := add_if (negb (c =? 0x00)%Z) "Error in ACC_CONF register. " errors in
  f <- get_bit _odrHighError ;;
  let errors := add_if f "ODR set too low for feature." errors in
  f <- get_bit _odr50hzError ;;
  let errors :=
    add_if f "ODR requires a minimum of 50 Hz in power saving mode. " errors in
  f <- get_bit _axesRemapError ;;
  let errors := add_if f "Axes remapped incorrectly. " errors in
  errors <-
    (st <- get_bits _internalStatus ;;
     if (st =? 0x00)%Z then ret (errors ++ "Not initialized. ") else
     st <- get_bits _internalStatus ;;
     if (st =? 0x02)%Z then ret (errors ++ "Initialization error. ") else
     st <- get_bits _internalStatus ;;
     if (st =? 0x03)%Z then ret (errors ++ "Invalid driver. ") else
     st <- get_bits _internalStatus ;;
     if (st =? 0x04)%Z then ret (errors ++ "Sensor stopped. ") else
     i1 <- get_bit _intErr1 ;;
     if i1 then ret (errors ++ "Internal timeout.") else
     i2 <- get_bit _intErr2 ;;
     if i2 then ret (errors ++ "Internal error.") else
     ret errors) ;;
  if String.eqb errors EmptyString then ret "Unknown error." else ret errors.

(** ** [_writeChecks] *)
Definition _writeChecks : M bus unit :=
  err <- error ;;
  (if err then
     msg <- errorMessage ;;
     raise (RuntimeError ("ACCEL: ERROR: " ++ msg))
   else ret tt) ;;;
  lp <- get_lowPowerMode ;;
  when (negb lp) (delay_us 1000).

(** ** The validated settings *)
Definition get_dataRate : M bus LookupTable.key :=
  v <- get_bits _accOdr ;;
  lift (LookupTable.getkey LookupTable.opts "data rate" (LookupTable.CInt v)).

Definition set_dataRate (value : option string) : M bus unit :=
  c <- lift (LookupTable.lookup LookupTable.opts "data rate" value) ;;
  _writeChecks ;;;
  set_bits_code _accOdr c.

Definition get_bandwidthParameter : M bus LookupTable.key :=
  v <- get_bits _accBwp ;;
  lift (LookupTable.getkey LookupTable.opts "bandwidth" (LookupTable.CInt v)).

Definition set_bandwidthParameter (value : option string) : M bus unit :=
  c <- lift (LookupTable.lookup LookupTable.opts "bandwidth" value) ;;
  _writeChecks ;;;
  set_bits_code _accBwp c.

Definition get_accelerationRange : M bus LookupTable.key :=
  v <- get_bits _accRange ;;
  lift (LookupTable.getkey LookupTable.opts "acceleration range" (LookupTable.CInt v)).

Definition set_accelerationRange (value : option string) : M bus unit :=
  c <- lift (LookupTable.lookup LookupTable.opts "acceleration range" value) ;;
  _writeChecks ;;;
  set_bits_code _accRange c.

(** ** [acceleration]

    [self._accRange] is read once for each axis of the comprehension. *)
Definition acceleration : M bus vector :=
  ax <- get_bits _accX ;;
  ay <- get_bits _accY ;;
  az <- get_bits _accZ ;;
  r <- get_bits _accRange ;;
  let dx := scale ax r in
  r <- get_bits _accRange ;;
  let dy := scale ay r in
  r <- get_bits _accRange ;;
  let dz := scale az r in
  ret (mk_vector dx dy dz).

(** ** [_loadMainConfig] *)

(** The body of [for offset in range(0, len(config), dataLen)]. *)
Fixpoint load_chunks (config : list Z) (offsets : list Z) : M bus unit :=
  match offsets with
  | [] => ret tt
  | offset :: rest =>
      set_featureAddress offset ;;;
      let data := chunk config offset in
      set_struct _featuresIn (Z.to_nat _MAX_TRANSFER_LENGTH) data ;;;
      back <- get_struct _featuresIn (Z.to_nat _MAX_TRANSFER_LENGTH) ;;
      if negb (list_eqb back data)
      then raise (RuntimeError "ACCEL: Config verify failed.")
      else load_chunks config rest
  end.

Definition _loadMainConfig (config : list Z) : M bus unit :=
  lp <- get_lowPowerMode ;;
  if lp
  then raise (RuntimeError "ACCEL: Cannot load config in low power mode.")
  else
    let len := Z.of_nat (List.length config) in
    if (len >=? 0x2000)%Z
    then raise (RuntimeError "ACCEL: Config too large.")
    else if negb (len mod 8 =? 0)%Z
    then raise (RuntimeError "ACCEL: Config size must be a multiple of eight.")
    else load_chunks config (range_step len _MAX_TRANSFER_LENGTH).

(** ** [reset]

    [config] is the content of [accelcfg.dat]; the [print] and [gc] calls
    are left out.  The error message is computed twice in the source (once
    for [print], once for the exception) and so are its register reads. *)
Definition reset (fuel : nat) (config : list Z) : M bus unit :=
  id <- get_unary _deviceId ;;
  if negb (id =? _BMA423_ID)%Z
  then raise (RuntimeError "ACCEL: Incorrect device ID")
  else
    _runCmd fuel "softReset" ;;;
    set_lowPowerMode false ;;;
    set_bits _initCtrl 0x00 ;;;
    _loadMainConfig config ;;;
    set_bits _initCtrl 0x01 ;;;
    delay_us 150000 ;;;
    st <- get_bits _internalStatus ;;
    (if negb (st =? 0x01)%Z then
       _printed <- errorMessage ;;
       msg <- errorMessage ;;
       raise (RuntimeError ("ACCEL: Init timed out: " ++ msg))
     else ret tt) ;;;
    set_bit _accEn true ;;;
    set_dataRate (Some "50 Hz") ;;;
    set_bandwidthParameter (Some "2 samples") ;;;
    set_accelerationRange (Some "2g") ;;;
    set_lowPowerMode true.

End Driver.

(** ** What a configuration load leaves on the bus *)

(** The three writes that move one chunk: the two halves of the window
    address, then the chunk. *)
Definition transfer_writes (config : list Z) (offset : Z) : list (Z * list Z) :=
  [(register_address _asicLsb, [Z.land (Z.shiftr offset 1) 0x0F]);
   (register_address _asicMsb, [Z.shiftr offset 5]);
   (_featuresIn, chunk config offset)].

(** How the loop over [offsets] ends, given the events [new] it added:
    either every chunk was written at its offset and read back equal, or the
    chunks up to some index were written and the last readback differs. *)
Definition load_outcome
  (config offsets : list Z) (r : result unit) (new : bus) : Prop :=
  (r = Ok tt /\
   all_writes new = flat_map (transfer_writes config) offsets /\
   reads_of _featuresIn new = map (chunk config) offsets)
  \/
  (exists (n : nat) (back : list Z),
     (n < List.length offsets)%nat /\
     r = Raise (RuntimeError "ACCEL: Config verify failed.") /\
     all_writes new = flat_map (transfer_writes config) (firstn (S n) offsets) /\
     reads_of _featuresIn new
       = map (chunk config) (firstn n offsets) ++ [back] /\
     back <> chunk config (nth n offsets 0)).

(** The two data registers of an axis: the 12-bit two's complement reading
    in the upper bits of a little-endian pair, [low] in the four bits below. *)
Definition axis_bytes (raw low : Z) : list Z :=
  le_bytes 2 (Z.shiftl (raw mod 4096) 4 + low).

(** A chip at rest on a table: 0 on X and Y, 1 g on Z at range code 0,
    and one with the most negative reading on X at range code 3. *)
Definition resting_chip : bus_oracle :=
  fun _ register _ =>
    if register =? 0x12 then axis_bytes 0 0
    else if register =? 0x14 then axis_bytes 0 0
    else if register =? 0x16 then axis_bytes 1023 0
    else [0x00].

(** ** Sample chips

    The data last written to a register, if any. *)
Fixpoint last_write (register : Z) (h : bus) : option (list Z) :=
  match h with
  | [] => None
  | BusWrite r data :: h' =>
      if r =? register then Some data else last_write register h'
  | _ :: h' => last_write register h'
  end.

(** A chip whose registers hold what was written to them, with the right
    device identifier, the command-ready flag up and the internal status
    at "initialised".  With [flip], the feature window reads back inverted. *)
Definition sample_chip (flip : bool) : bus_oracle :=
  fun h register n =>
    if register =? _deviceId then [_BMA423_ID]
    else if register =? 0x03 then [0x10]
    else if register =? _statusReg then [0x01]
    else
      match last_write register h with
      | Some data =>
          if flip && (register =? _featuresIn) then map (Z.lxor 0xFF) data
          else data
      | None => []
      end.

(** A configuration block of two chunks. *)
Definition sample_config : list Z :=
  [0x80; 0x2E; 0xFC; 0x80; 0x2E; 0xFE; 0xC8; 0x2E;
   0xF4; 0x80; 0x2E; 0xC2; 0x01; 0x80; 0x2E; 0xA4].

End Accelerometer.

(* ================================================================== *)
(** * Theorems                                                          *)
(* ================================================================== *)

Section DisplayFacts.
Import Display.

Lemma bytes_ok (l : list Z) : forallb is_byte l = true -> bytes l = Ok l.
Proof. intros H. unfold bytes. now rewrite H. Qed.


Ltac destruct_flags :=
  repeat match goal with b : bool |- _ => destruct b end.





Lemma consistent_bytes (s : t) :
  consistent s ->
  is_byte (COLOUR_MODE s) = true /\ is_byte (BORDER_WAVEFORM s) = true /\
  is_byte (UPDATE_MODE s) = true.
Proof.
  destruct s; unfold consistent; destruct_flags; cbn;
    intros (H1 & H2 & H3); subst; auto.
Qed.

Lemma land_255_byte (x : Z) : is_byte (Z.land x 0xFF) = true.
Proof.
  unfold is_byte. change 0xFF with (Z.ones 8). rewrite Z.land_ones by lia.
  pose proof (Z.mod_pos_bound x (2 ^ 8) ltac:(lia)) as H.
  apply andb_true_intro; split; [apply Z.leb_le | apply Z.ltb_lt]; lia.
Qed.

Lemma header_block_bytes (s : t) :
  is_byte (BORDER_WAVEFORM s) = true -> is_byte (COLOUR_MODE s) = true ->
  forallb is_byte (header_block s) = true.
Proof. intros H1 H2. cbn. now rewrite H1, H2. Qed.

Lemma window_block_bytes (s : t) (um : Z) :
  is_byte (X_WINDOW_START s) = true -> is_byte (X_WINDOW_END s) = true ->
  is_byte um = true ->
  forallb is_byte (window_block s um) = true.
Proof.
  intros H1 H2 H3. unfold window_block.
  cbn [forallb]. rewrite H1, H2, H3, !land_255_byte. reflexivity.
Qed.

Lemma flash_block_bytes (ac cm um : Z) :
  is_byte ac = true -> is_byte cm = true -> is_byte um = true ->
  forallb is_byte (flash_block ac cm um) = true.
Proof. intros H1 H2 H3. cbn. now rewrite H1, H2, H3. Qed.

Lemma assign_sequence_ok (l : list Z) (s : t) :
  forallb is_byte l = true ->
  assign_sequence l s = (Ok tt, with_updateSequence (Some l) s).
Proof. intros H. unfold assign_sequence. now rewrite (bytes_ok _ H). Qed.

Lemma append_sequence_ok (l cur : list Z) (s : t) :
  forallb is_byte l = true -> updateSequence s = Some cur ->
  append_sequence l s = (Ok tt, with_updateSequence (Some (cur ++ l)) s).
Proof.
  intros H Hc. unfold append_sequence. now rewrite (bytes_ok _ H), Hc.
Qed.

Lemma rebuild_ok_bytes (s : t) :
  is_byte (BORDER_WAVEFORM s) = true -> is_byte (COLOUR_MODE s) = true ->
  is_byte (updateMode s) = true ->
  forallb is_byte (window_block s (updateMode s)) = true ->
  _rebuildUpdateSequence s =
    (Ok tt,
     with_modeChanged false
       (with_display
          (UpdateRefreshMode (sequence_of s) (frameDelay s) :: display s)
          (with_updateSequence (Some (sequence_of s)) s))).
Proof.
  intros Hb Hc Hum Hw.
  pose proof (header_block_bytes s Hb Hc) as Hh.
  assert (Hf : forallb is_byte
            (flash_block (alt_colour s) (COLOUR_MODE s) (updateMode s))
          = true).
  { apply flash_block_bytes; auto.
    unfold alt_colour. destruct (greyMode s), (darkMode s); auto. }
  unfold _rebuildUpdateSequence, sequence_of.
  unfold bind at 1. cbn [get].
  unfold bind at 1. rewrite (assign_sequence_ok _ _ Hh).
  destruct (fastRefresh s && negb (fullRefresh s));
    destruct (negb (fullRefresh s)); destruct (negb (darkMode s));
    unfold when;
    repeat (unfold bind at 1;
            first [ erewrite append_sequence_ok by
                      first [ eassumption | reflexivity ]
                  | unfold ret at 1 ]);
    unfold bind at 1, update_refresh_mode; unfold bind at 1; cbn [get];
    cbn [updateSequence with_updateSequence]; unfold modify;
    rewrite ?app_nil_r, <- ?app_assoc; reflexivity.
Qed.



Lemma consistent_init (d : list hw_event) : consistent (__init__ d).
Proof. repeat split. Qed.

















Lemma header_window_codes (s : t) (um : Z) :
  map cmd_code (commands (header_block s ++ window_block s um)) =
    [CMD_SOFT_RESET; CMD_GATE_SETTING; CMD_BORDER_WAVEFORM; CMD_TEMP_SENSOR;
     CMD_PANEL_COLOURS; CMD_ENTRY_MODE; CMD_X_WINDOW; CMD_Y_WINDOW;
     CMD_X_OFFSET; CMD_Y_OFFSET; CMD_UPDATE_SEQUENCE].
Proof. reflexivity. Qed.


Lemma window_bytes_of (s : t) :
  is_byte (X_WINDOW_START s) = true -> is_byte (X_WINDOW_END s) = true ->
  consistent s ->
  forallb is_byte (window_block s (updateMode s)) = true.
Proof.
  intros H1 H2 Hc. apply window_block_bytes; auto.
  destruct (consistent_bytes s Hc) as (_ & _ & H3).
  unfold updateMode. destruct (initialRefresh s); auto.
Qed.



(** C2.  With [fastRefresh] and [fullRefresh] both set and the first frame
    already shown, every update-sequence-control command of the built
    sequence carries [FAST_UPDATE] (0xFC), not [SLOW_UPDATE] (0xF7): the
    builder picks the byte from [initialRefresh] and [UPDATE_MODE] alone. *)
Theorem fullRefresh_leaves_fast_update_byte :
  exists s : t,
    run never_busy 1 [Refresh; SetFullRefresh true; Refresh] (__init__ [])
      = Some s /\
    fastRefresh s = true /\ fullRefresh s = true /\ _fullRefresh s = true /\
    initialRefresh s = false /\
    option_map (params_of CMD_UPDATE_SEQUENCE) (loaded (display s))
      = Some [[FAST_UPDATE]] /\
    FAST_UPDATE = 0xFC /\ SLOW_UPDATE = 0xF7.
Proof. eexists. vm_compute. repeat split. Qed.

(** C5.  [setWindow] stores the columns shifted right by 8, so the X window
    bytes of the built sequence are the columns divided by 256; the rows are
    kept as given.  For [setWindow(8, 0, 199, 199)] the X window command
    carries [0, 0], where division by 8 gives [1, 24]. *)
Theorem setWindow_columns_shifted_by_8_bits :
  (forall (s : t) (x1 y1 x2 y2 : Z),
     let s' := setWindow x1 y1 x2 y2 s in
     X_WINDOW_START s' = x1 / 256 /\ X_WINDOW_END s' = x2 / 256 /\
     Y_WINDOW_START s' = y1 /\ Y_WINDOW_END s' = y2) /\
  (let s' := setWindow 8 0 199 199 (__init__ []) in
   built s' = (Ok tt, Some (sequence_of s')) /\
   params_of CMD_X_WINDOW (sequence_of s') = [[0; 0]] /\
   params_of CMD_Y_WINDOW (sequence_of s') = [[0; 0; 199; 0]] /\
   8 / 8 = 1 /\ 199 / 8 = 24).
Proof.
  split.
  - intros s x1 y1 x2 y2 s'. subst s'. destruct s; cbn -[Z.shiftr Z.div].
    rewrite !Z.shiftr_div_pow2 by lia. change (2 ^ 8) with 256. auto.
  - vm_compute. repeat split.
Qed.














(** ** The refresh loop *)

Lemma with_display_twice (a b : list hw_event) (s : t) :
  with_display a (with_display b s) = with_display a s.
Proof. destruct s; reflexivity. Qed.



(** The loop returns once the controller stops being busy. *)
Lemma refresh_loop_returns (busy : hw_oracle) (n : nat) :
  forall fuel s,
    busy_attempts busy n (display s) -> (n < fuel)%nat ->
    refresh_loop busy fuel s =
      (Ok tt, with_display (RefreshDone :: repeat RefreshBusy n ++ display s) s).
Proof.
  induction n as [|n IH]; intros fuel s Hb Hf;
    (destruct fuel as [|fuel]; [lia|]); cbn [refresh_loop];
    unfold bind, get, modify; cbn [busy_attempts] in Hb.
  - rewrite Hb. reflexivity.
  - destruct Hb as (Hb1 & Hb2). rewrite Hb1. cbn beta iota.
    rewrite (IH fuel (with_display (RefreshBusy :: display s) s)).
    + rewrite with_display_twice. f_equal. f_equal.
      destruct s; cbn [display with_display]. f_equal.
      change (RefreshBusy :: display0) with ([RefreshBusy] ++ display0).
      rewrite app_assoc. f_equal.
      change [RefreshBusy] with (repeat RefreshBusy 1).
      rewrite <- repeat_app. f_equal. lia.
    + destruct s; exact Hb2.
    + lia.
Qed.


(** ** The invariant between calls *)










(** [refresh] returns once the controller stops being busy, provided the
    window bytes fit in a byte: if, from the history at which the retry loop
    starts, the controller is busy [n] times and then free, [n + 1] attempts
    are enough. *)
Lemma refresh_returns (busy : hw_oracle) (n fuel : nat) (s : t) :
  consistent s ->
  is_byte (X_WINDOW_START s) = true -> is_byte (X_WINDOW_END s) = true ->
  busy_attempts busy n
    (display (snd (when (modeChanged s) _rebuildUpdateSequence s))) ->
  (n < fuel)%nat ->
  exists s', refresh busy fuel s = (Ok tt, s') /\ initialRefresh s' = false.
Proof.
  intros Hc H1 H2 Hb Hf.
  unfold refresh. unfold bind at 1. cbn [get]. unfold bind at 1.
  assert (Hpre : exists s1, when (modeChanged s) _rebuildUpdateSequence s
                            = (Ok tt, s1)).
  { unfold when. destruct (modeChanged s).
    - destruct (consistent_bytes s Hc) as (B1 & B2 & B3).
      rewrite rebuild_ok_bytes; auto using window_bytes_of.
      + eexists. reflexivity.
      + unfold updateMode. destruct (initialRefresh s); auto.
    - exists s. reflexivity. }
  destruct Hpre as (s1 & E). rewrite E in Hb |- *. cbn [snd] in Hb.
  unfold bind at 1.
  rewrite (refresh_loop_returns busy n fuel s1 Hb Hf).
  unfold bind at 1. cbn [get].
  replace (initialRefresh
             (with_display (RefreshDone :: repeat RefreshBusy n ++ display s1) s1))
    with (initialRefresh s1) by (destruct s1; reflexivity).
  destruct (initialRefresh s1) eqn:Ei; unfold when, modify, ret;
    eexists; (split; [reflexivity|]); destruct s1; cbn in *; congruence.
Qed.

(** The first refresh of a fresh driver on a controller that is busy twice. *)
Example refresh_returns_after_two_busy :
  exists s',
    refresh busy_twice 3 (__init__ []) = (Ok tt, s') /\
    initialRefresh s' = false.
Proof.
  apply (refresh_returns busy_twice 2 3 (__init__ [])).
  - apply consistent_init.
  - reflexivity.
  - reflexivity.
  - vm_compute. repeat split.
  - lia.
Qed.



End DisplayFacts.

(* ------------------------------------------------------------------ *)
(** ** LookupTable                                                      *)
(* ------------------------------------------------------------------ *)

Section LookupFacts.
Import LookupTable.
Context {F : PyFloat}.
Local Open Scope string_scope.

(** [getkey] raises whatever it is given. *)
Lemma getkey_raises (self : t) (table : string) (c : code) :
  exists e, getkey self table c = Raise e.
Proof.
  unfold getkey.
  destruct (dict_get String.eqb (PyStr.strip (PyStr.lower table)) (allData self));
    eexists; reflexivity.
Qed.

(** Building [Accelerometer.opts] does not raise. *)
Lemma opts_built : __init__ opts_literal = Ok opts.
Proof. vm_compute. reflexivity. Qed.






End LookupFacts.

Section LookupExamples.
Import LookupTable.
Local Open Scope string_scope.

(** The tables of [Accelerometer.opts] under exact decimal arithmetic. *)
Example opts_decimal_tables :
  map fst (allData (opts (F := DecimalFloat.decimal))) =
    ["datarate"; "bandwidth"; "accelerationrange"; "cmd"; "features"].
Proof. vm_compute. reflexivity. Qed.

(** Each failure case of [lookup] occurs on [Accelerometer.opts]. *)
Example lookup_failure_cases :
  let o := opts (F := DecimalFloat.decimal) in
  lookup o "data rate" None = Raise (RuntimeError "Blank key.") /\
  lookup o "data rate" (Some EmptyString) = Raise (RuntimeError "Blank key.") /\
  lookup o "cmd" (Some "reboot") = Raise (RuntimeError KEY_NOT_FOUND) /\
  lookup o "data rate" (Some "fast") =
    Raise (RuntimeError "Key fast is not a valid number.") /\
  lookup o "data rate" (Some "7 Hz") = Raise (RuntimeError KEY_NOT_FOUND) /\
  lookup o "data rate" (Some "Hz") =
    Raise (IndexError "string index out of range").
Proof. vm_compute. repeat split. Qed.

(** C1.  [getkey] never returns: for a name that is not a key of [allData]
    after [lower().strip()] (as ['data rate'] and ['acceleration range'],
    stored without their space) it raises [RuntimeError], and for any other
    it indexes the name itself and raises [TypeError].  So no code that
    [lookup] returns is mapped back to its key. *)
Theorem getkey_never_inverts_lookup :
  (forall (F : PyFloat) (self : t) (table : string) (c : code),
      exists e, getkey self table c = Raise e) /\
  (let o := opts (F := DecimalFloat.decimal) in
   lookup o "bandwidth" (Some "2 samples") = Ok (CInt 0x01) /\
   exception_of (getkey o "bandwidth" (CInt 0x01)) =
     Some (TypeError "string indices must be integers") /\
   lookup o "data rate" (Some "50 Hz") = Ok (CInt 0x07) /\
   exception_of (getkey o "data rate" (CInt 0x07)) =
     Some (RuntimeError "Lookup table data rate not found.") /\
   lookup o "acceleration range" (Some "2g") = Ok (CInt 0x00) /\
   exception_of (getkey o "acceleration range" (CInt 0x00)) =
     Some (RuntimeError "Lookup table acceleration range not found.")).
Proof.
  split.
  - intros F self table c. apply getkey_raises.
  - vm_compute. repeat split.
Qed.


End LookupExamples.

(* ------------------------------------------------------------------ *)
(** ** Accelerometer                                                    *)
(* ------------------------------------------------------------------ *)

Section AccelerometerFacts.
Import Accelerometer.
Context {F : PyFloat} (device : bus_oracle).

Lemma forallb_zrange (P : Z -> bool) (n : nat) :
  forall a,
    forallb P (zrange a n) = true ->
    forall v, a <= v < a + Z.of_nat n -> P v = true.
Proof.
  induction n as [|n IH]; intros a H v Hv; [lia|].
  cbn [zrange forallb] in H. apply andb_true_iff in H as (H1 & H2).
  destruct (Z.eq_dec v a) as [->|Hne]; [exact H1|].
  apply (IH (a + 1) H2). lia.
Qed.

(** A read of one byte delivers one byte. *)
Lemma response_one (h : bus) (register : Z) :
  exists b, response device h register 1 = [b] /\ 0 <= b < 256.
Proof.
  unfold response.
  assert (Hb : forall v, 0 <= Z.land v 0xFF < 256).
  { intros v. change 0xFF with (Z.ones 8). rewrite Z.land_ones by lia.
    apply Z.mod_pos_bound. lia. }
  destruct (device h register 1%nat) as [|v l]; cbn [app repeat firstn map];
    eexists; split; try reflexivity; apply Hb.
Qed.

(** Decoding an axis register pair gives back the signed reading. *)
Lemma axis_bytes_value (raw low : Z) :
  -2048 <= raw < 2048 -> 0 <= low < 16 ->
  field_value _accX (axis_bytes raw low) = raw.
Proof.
  intros Hr Hl.
  assert (E : forall v, 0 <= v < 0 + Z.of_nat (Z.to_nat 65536) ->
              (field_value _accX (le_bytes 2 v)
               =? (if v / 16 <? 2048 then v / 16 else v / 16 - 4096)) = true).
  { apply forallb_zrange. vm_compute. reflexivity. }
  rewrite Z2Nat.id in E by lia.
  unfold axis_bytes. rewrite Z.shiftl_mul_pow2 by lia. change (2 ^ 4) with 16.
  pose proof (Z.mod_pos_bound raw 4096 ltac:(lia)) as Hm.
  specialize (E (raw mod 4096 * 16 + low) ltac:(lia)).
  apply Z.eqb_eq in E. rewrite E.
  replace ((raw mod 4096 * 16 + low) / 16) with (raw mod 4096)
    by (apply Z.div_unique with low; lia).
  destruct (Z.ltb_spec (raw mod 4096) 2048) as [Hlt|Hge].
  - destruct (Z_lt_le_dec raw 0) as [Hneg|Hpos].
    + rewrite <- (Z.mod_add raw 1 4096) in Hlt by lia.
      rewrite Z.mod_small in Hlt by lia. lia.
    + apply Z.mod_small. lia.
  - destruct (Z_lt_le_dec raw 0) as [Hneg|Hpos].
    + rewrite <- (Z.mod_add raw 1 4096) by lia.
      rewrite Z.mod_small by lia. lia.
    + rewrite Z.mod_small in Hge by lia. lia.
Qed.

(** A read of two bytes delivers two bytes. *)
Lemma response_two (h : bus) (register : Z) :
  exists b0 b1,
    response device h register 2 = [b0; b1] /\
    0 <= b0 < 256 /\ 0 <= b1 < 256.
Proof.
  unfold response.
  assert (Hb : forall v, 0 <= Z.land v 0xFF < 256).
  { intros v. change 0xFF with (Z.ones 8). rewrite Z.land_ones by lia.
    apply Z.mod_pos_bound. lia. }
  destruct (device h register 2%nat) as [|v [|w l]];
    cbn [app repeat firstn map]; do 2 eexists;
    (split; [reflexivity|]); split; apply Hb.
Qed.

Lemma le_bytes_two (b0 b1 : Z) :
  0 <= b0 < 256 -> 0 <= b1 < 256 -> le_bytes 2 (b0 + 256 * b1) = [b0; b1].
Proof.
  intros H0 H1. cbn [le_bytes]. change 0xFF with (Z.ones 8).
  rewrite !Z.land_ones, !Z.shiftr_div_pow2 by lia. change (2 ^ 8) with 256.
  replace ((b0 + 256 * b1) / 256) with b1
    by (apply Z.div_unique with b0; lia).
  replace ((b0 + 256 * b1) mod 256) with b0
    by (apply Z.mod_unique with b1; lia).
  now rewrite Z.mod_small by lia.
Qed.

(** Whatever the chip answers, an axis reads as a signed 12-bit number and
    the range as a 2-bit code. *)
Lemma axis_reading_range (h : bus) (b : Bits) (v : Z) :
  In b [_accX; _accY; _accZ] ->
  fst (get_bits device b h) = Ok v -> -2048 <= v < 2048.
Proof.
  intros Hb H.
  assert (E : forall w, 0 <= w < 0 + Z.of_nat (Z.to_nat 65536) ->
              ((-2048 <=? field_value _accX (le_bytes 2 w))
               && (field_value _accX (le_bytes 2 w) <? 2048)) = true).
  { apply forallb_zrange. vm_compute. reflexivity. }
  rewrite Z2Nat.id in E by lia.
  assert (G : forall data, field_value _accX data = field_value b data).
  { cbn [In] in Hb. destruct Hb as [<- | [<- | [<- | []]]]; reflexivity. }
  unfold get_bits, bind, read_register, ret in H. cbn [fst] in H.
  injection H as <-. rewrite <- G.
  assert (W : register_width b = 2%nat).
  { cbn [In] in Hb. destruct Hb as [<- | [<- | [<- | []]]]; reflexivity. }
  rewrite W.
  destruct (response_two h (register_address b)) as (b0 & b1 & -> & H0 & H1).
  rewrite <- (le_bytes_two b0 b1 H0 H1).
  specialize (E (b0 + 256 * b1) ltac:(lia)).
  apply andb_true_iff in E as (E1 & E2).
  apply Z.leb_le in E1. apply Z.ltb_lt in E2. lia.
Qed.

Lemma range_reading_range (h : bus) (v : Z) :
  fst (get_bits device _accRange h) = Ok v -> 0 <= v < 4.
Proof.
  intros H.
  assert (E : forall w, 0 <= w < 0 + Z.of_nat (Z.to_nat 256) ->
              ((0 <=? field_value _accRange [w])
               && (field_value _accRange [w] <? 4)) = true).
  { apply forallb_zrange. vm_compute. reflexivity. }
  rewrite Z2Nat.id in E by lia.
  unfold get_bits, bind, read_register, ret in H. cbn [fst] in H.
  injection H as <-.
  destruct (response_one h 0x41) as (b & Hb & Hr).
  change (response device h 65 1) with (response device h 0x41 1).
  rewrite Hb.
  specialize (E b ltac:(lia)).
  apply andb_true_iff in E as (E1 & E2).
  apply Z.leb_le in E1. apply Z.ltb_lt in E2. lia.
Qed.

(** The quotient [acceleration] computes is exact in binary64: the float
    that [(axis + 1) / 2 ** (10 - range)] evaluates to stands for the
    rational [scale axis range]. *)
Lemma scale_exact_in_binary64 (axis range : Z) :
  -2048 <= axis < 2048 -> 0 <= range < 4 ->
  exists q,
    Binary64.value (Binary64.true_div (axis + 1) (2 ^ (10 - range))) = Some q /\
    q == scale axis range.
Proof.
  intros Ha Hr.
  assert (E : forall r, In r [0; 1; 2; 3] ->
              forall a, -2048 <= a < -2048 + Z.of_nat (Z.to_nat 4096) ->
              match Binary64.value (Binary64.true_div (a + 1) (2 ^ (10 - r))) with
              | Some q => Qeq_bool q (scale a r)
              | None => false
              end = true).
  { intros r Hin. apply forallb_zrange.
    cbn [In] in Hin.
    destruct Hin as [<- | [<- | [<- | [<- | []]]]]; vm_compute; reflexivity. }
  assert (Hin : In range [0; 1; 2; 3]).
  { assert (range = 0 \/ range = 1 \/ range = 2 \/ range = 3) as
      [-> | [-> | [-> | ->]]] by lia; cbn; auto. }
  specialize (E range Hin axis).
  rewrite Z2Nat.id in E by lia. specialize (E ltac:(lia)).
  destruct (Binary64.value (Binary64.true_div (axis + 1) (2 ^ (10 - range))))
    as [q|]; [|discriminate].
  exists q. split; [reflexivity|]. now apply Qeq_bool_iff.
Qed.

Lemma get_bits_fixed (b : Bits) (v : Z) :
  (forall h', fst (get_bits device b h') = Ok v) ->
  forall h', exists h'', get_bits device b h' = (Ok v, h'').
Proof.
  intros H h'. specialize (H h').
  destruct (get_bits device b h') as (res, h''). cbn [fst] in H. subst res.
  now exists h''.
Qed.

(** C9.  When the axes read [ax], [ay], [az] and the range field reads [r],
    [acceleration] returns [(axis + 1) / 2 ** (10 - r)] for each axis; the
    readings are signed 12-bit numbers and the range a 2-bit code, so the
    divisor is a positive power of two; and a reading of 0 at range code 0
    gives exactly 0.0009765625. *)
Theorem acceleration_scales_each_axis (h : bus) (ax ay az r : Z) :
  (forall h', fst (get_bits device _accX h') = Ok ax) ->
  (forall h', fst (get_bits device _accY h') = Ok ay) ->
  (forall h', fst (get_bits device _accZ h') = Ok az) ->
  (forall h', fst (get_bits device _accRange h') = Ok r) ->
  fst (acceleration device h) =
    Ok (mk_vector (inject_Z (ax + 1) / inject_Z (2 ^ (10 - r)))
                  (inject_Z (ay + 1) / inject_Z (2 ^ (10 - r)))
                  (inject_Z (az + 1) / inject_Z (2 ^ (10 - r)))) /\
  (-2048 <= ax < 2048 /\ -2048 <= ay < 2048 /\ -2048 <= az < 2048 /\
   0 <= r < 4 /\ 128 <= 2 ^ (10 - r) <= 1024) /\
  scale 0 0 == 0.0009765625.
Proof.
  intros Hx Hy Hz Hr.
  assert (Rx := axis_reading_range h _accX ax ltac:(cbn; auto) (Hx h)).
  assert (Ry := axis_reading_range h _accY ay ltac:(cbn; auto) (Hy h)).
  assert (Rz := axis_reading_range h _accZ az ltac:(cbn; auto) (Hz h)).
  assert (Rr := range_reading_range h r (Hr h)).
  split; [|split].
  - unfold acceleration.
    unfold bind at 1. destruct (get_bits_fixed _ _ Hx h) as (h1 & ->).
    unfold bind at 1. destruct (get_bits_fixed _ _ Hy h1) as (h2 & ->).
    unfold bind at 1. destruct (get_bits_fixed _ _ Hz h2) as (h3 & ->).
    unfold bind at 1. destruct (get_bits_fixed _ _ Hr h3) as (h4 & ->).
    unfold bind at 1. destruct (get_bits_fixed _ _ Hr h4) as (h5 & ->).
    unfold bind at 1. destruct (get_bits_fixed _ _ Hr h5) as (h6 & ->).
    reflexivity.
  - repeat split; try lia.
    + assert (r = 0 \/ r = 1 \/ r = 2 \/ r = 3) as [-> | [-> | [-> | ->]]]
        by lia; cbn; lia.
    + assert (r = 0 \/ r = 1 \/ r = 2 \/ r = 3) as [-> | [-> | [-> | ->]]]
        by lia; cbn; lia.
  - vm_compute. reflexivity.
Qed.



Lemma get_bit_run (b : Bit) (h : bus) :
  get_bit device b h =
    (Ok (bit_value b (response device h (bit_register_address b) 1)),
     BusRead (bit_register_address b)
             (response device h (bit_register_address b) 1) :: h).
Proof. reflexivity. Qed.


Lemma get_bits_run (b : Bits) (h : bus) :
  get_bits device b h =
    (Ok (field_value b (response device h (register_address b) (register_width b))),
     BusRead (register_address b)
             (response device h (register_address b) (register_width b)) :: h).
Proof. reflexivity. Qed.

Lemma set_bits_run (b : Bits) (v : Z) (h : bus) :
  set_bits device b v h =
    (Ok tt,
     BusWrite (register_address b)
       (field_update b v
          (response device h (register_address b) (register_width b)))
     :: BusRead (register_address b)
                (response device h (register_address b) (register_width b)) :: h).
Proof. reflexivity. Qed.

(** The property getters of the three settings pass the register value to
    [getkey], so they raise on every chip. *)
Lemma setting_getters_raise (h : bus) :
  (exists e, fst (get_dataRate device h) = Raise e) /\
  (exists e, fst (get_bandwidthParameter device h) = Raise e) /\
  (exists e, fst (get_accelerationRange device h) = Raise e).
Proof.
  unfold get_dataRate, get_bandwidthParameter, get_accelerationRange, bind.
  rewrite !get_bits_run. unfold lift.
  split; [|split];
    match goal with
    | |- context [LookupTable.getkey ?o ?t ?c] =>
        destruct (getkey_raises o t c) as (e & ->)
    end; exists e; reflexivity.
Qed.

(** The two halves written by the [_featureAddress] setter give the address
    back through the getter's formula. *)
Lemma feature_address_halves (o : Z) :
  0 <= o < 0x2000 -> o mod 2 = 0 ->
  Z.lor (Z.land (Z.land (Z.shiftr o 1) 0x0F) 0x0F) (Z.shiftl (Z.shiftr o 5) 4) * 2
  = o.
Proof.
  intros Ho He.
  assert (E : forall w, 0 <= w < 0 + Z.of_nat (Z.to_nat 0x2000) ->
              ((negb (w mod 2 =? 0))
               || (Z.lor (Z.land (Z.land (Z.shiftr w 1) 0x0F) 0x0F)
                         (Z.shiftl (Z.shiftr w 5) 4) * 2 =? w)) = true).
  { apply forallb_zrange. vm_compute. reflexivity. }
  rewrite Z2Nat.id in E by lia. specialize (E o ltac:(lia)).
  rewrite He in E. cbn [Z.eqb negb orb] in E. now apply Z.eqb_eq in E.
Qed.

Lemma writes_to_app (r : Z) (a b : bus) :
  writes_to r (a ++ b) = writes_to r b ++ writes_to r a.
Proof.
  induction a as [|e a IH]; cbn [app writes_to]; [now rewrite app_nil_r|].
  destruct e; auto. destruct (register =? r); auto.
  now rewrite IH, app_assoc.
Qed.

Lemma reads_of_app (r : Z) (a b : bus) :
  reads_of r (a ++ b) = reads_of r b ++ reads_of r a.
Proof.
  induction a as [|e a IH]; cbn [app reads_of]; [now rewrite app_nil_r|].
  destruct e; auto. destruct (register =? r); auto.
  now rewrite IH, app_assoc.
Qed.

Lemma all_writes_app (a b : bus) :
  all_writes (a ++ b) = all_writes b ++ all_writes a.
Proof.
  induction a as [|e a IH]; cbn [app all_writes]; [now rewrite app_nil_r|].
  destruct e; auto. now rewrite IH, app_assoc.
Qed.

Lemma list_eqb_eq (a b : list Z) : list_eqb a b = true <-> a = b.
Proof.
  revert b. induction a as [|x a IH]; destruct b as [|y b]; cbn [list_eqb];
    split; try discriminate; auto.
  - intros H. apply andb_true_iff in H as (H1 & H2).
    apply Z.eqb_eq in H1. apply IH in H2. congruence.
  - intros H. injection H as -> ->. rewrite Z.eqb_refl. cbn. now apply IH.
Qed.

(** Writing a whole byte replaces what was there. *)
Lemma field_update_byte (b : Bits) (v d : Z) :
  num_bits b = 8 -> lowest_bit b = 0 -> register_width b = 1%nat ->
  0 <= v < 256 ->
  field_update b v [d] = [v].
Proof.
  intros Hn Hl Hw Hv. unfold field_update, bit_mask. rewrite Hn, Hl, Hw.
  cbn [le_bytes le_value fold_right]. rewrite !Z.shiftl_0_r. f_equal.
  change (Z.shiftl 1 8 - 1) with 255. 
  rewrite Z.land_lor_distr_l, <- Z.land_assoc.
  change (Z.land (Z.lnot 255) 255) with 0. rewrite Z.land_0_r, Z.lor_0_l.
  change 255 with (Z.ones 8). rewrite Z.land_ones by lia.
  apply Z.mod_small. lia.
Qed.

Lemma In_firstn (v : Z) (n : nat) (l : list Z) : In v (firstn n l) -> In v l.
Proof.
  intros H. rewrite <- (firstn_skipn n l). apply in_or_app. now left.
Qed.

Lemma In_skipn_list (v : Z) (n : nat) (l : list Z) : In v (skipn n l) -> In v l.
Proof.
  intros H. rewrite <- (firstn_skipn n l). apply in_or_app. now right.
Qed.

Lemma set_featureAddress_run (o : Z) (h : bus) :
  0 <= o <= 0x2000 - 8 ->
  exists d1 d2,
    set_featureAddress device o h =
      (Ok tt,
       BusWrite (register_address _asicMsb) [Z.shiftr o 5]
       :: BusRead (register_address _asicMsb) [d2]
       :: BusWrite (register_address _asicLsb) [Z.land (Z.shiftr o 1) 0x0F]
       :: BusRead (register_address _asicLsb) [d1] :: h).
Proof.
  intros Ho. unfold set_featureAddress.
  replace ((o <? 0) || (o >? 0x2000 - _MAX_TRANSFER_LENGTH)) with false
    by (symmetry; apply orb_false_iff; split;
        [apply Z.ltb_ge | rewrite Z.gtb_ltb; apply Z.ltb_ge];
        unfold _MAX_TRANSFER_LENGTH; lia).
  unfold bind. rewrite !set_bits_run.
  change (register_width _asicLsb) with 1%nat.
  change (register_width _asicMsb) with 1%nat.
  destruct (response_one h (register_address _asicLsb)) as (d1 & -> & _).
  match goal with
  | |- context [response device ?hh (register_address _asicMsb) 1] =>
      destruct (response_one hh (register_address _asicMsb)) as (d2 & -> & _)
  end.
  exists d1, d2.
  assert (R1 : 0 <= Z.shiftr o 5 < 256).
  { rewrite Z.shiftr_div_pow2 by lia. change (2 ^ 5) with 32.
    split; [apply Z.div_pos; lia | apply Z.div_lt_upper_bound; lia]. }
  assert (R2 : 0 <= Z.land (Z.shiftr o 1) 0x0F < 256).
  { change 0x0F with (Z.ones 4). rewrite Z.land_ones by lia.
    pose proof (Z.mod_pos_bound (Z.shiftr o 1) (2 ^ 4) ltac:(lia)). lia. }
  rewrite !field_update_byte by (reflexivity || assumption).
  reflexivity.
Qed.

Lemma chunk_bytes (config : list Z) (o : Z) :
  forallb is_byte config = true -> forallb is_byte (chunk config o) = true.
Proof.
  intros Hbytes. apply forallb_forall. intros v Hv.
  rewrite forallb_forall in Hbytes. apply Hbytes.
  unfold chunk in Hv. apply In_firstn in Hv.
  apply (In_skipn_list _ _ _ Hv).
Qed.

(** One round of the loop: the window address, the chunk, the readback. *)
Lemma load_chunks_step (config : list Z) (o : Z) (rest : list Z) (h : bus) :
  forallb is_byte config = true ->
  0 <= o <= 0x2000 - 8 -> List.length (chunk config o) = 8%nat ->
  exists d1 d2 back,
    let h' :=
      BusRead _featuresIn back
      :: BusWrite _featuresIn (chunk config o)
      :: BusWrite (register_address _asicMsb) [Z.shiftr o 5]
      :: BusRead (register_address _asicMsb) [d2]
      :: BusWrite (register_address _asicLsb) [Z.land (Z.shiftr o 1) 0x0F]
      :: BusRead (register_address _asicLsb) [d1] :: h in
    back =
      response device
        (BusWrite _featuresIn (chunk config o)
         :: BusWrite (register_address _asicMsb) [Z.shiftr o 5]
         :: BusRead (register_address _asicMsb) [d2]
         :: BusWrite (register_address _asicLsb) [Z.land (Z.shiftr o 1) 0x0F]
         :: BusRead (register_address _asicLsb) [d1] :: h) _featuresIn 8 /\
    load_chunks device config (o :: rest) h =
      if list_eqb back (chunk config o)
      then load_chunks device config rest h'
      else (Raise (RuntimeError "ACCEL: Config verify failed."), h').
Proof.
  intros Hbytes Ho Hlen. cbn [load_chunks].
  destruct (set_featureAddress_run o h Ho) as (d1 & d2 & E1).
  exists d1, d2. eexists. cbv zeta. split; [reflexivity|].
  unfold bind at 1. rewrite E1.
  unfold bind at 1. unfold set_struct.
  change (Z.to_nat _MAX_TRANSFER_LENGTH) with 8%nat.
  rewrite Hlen, (chunk_bytes config o Hbytes). cbn [Nat.eqb andb].
  unfold write_register at 1.
  unfold bind at 1. unfold get_struct, read_register at 1.
  match goal with
  | |- context [list_eqb ?b _] => destruct (list_eqb b (chunk config o))
  end; reflexivity.
Qed.

Lemma load_chunks_outcome (config : list Z) (offsets : list Z) :
  forallb is_byte config = true ->
  Forall (fun o => 0 <= o <= 0x2000 - 8 /\
                   List.length (chunk config o) = 8%nat) offsets ->
  forall h,
  exists new,
    snd (load_chunks device config offsets h) = new ++ h /\
    load_outcome config offsets (fst (load_chunks device config offsets h)) new.
Proof.
  intros Hbytes Hoff. induction Hoff as [|o rest (Ho & Hlen) _ IH]; intros h.
  - exists []. split; [reflexivity|]. left. repeat split.
  - destruct (load_chunks_step config o rest h Hbytes Ho Hlen)
      as (d1 & d2 & back & _ & E).
    cbv zeta in E. rewrite E. clear E.
    destruct (list_eqb back (chunk config o)) eqn:Eb.
    + apply list_eqb_eq in Eb. subst back.
      match goal with
      | |- context [load_chunks device config rest ?hh] =>
          destruct (IH hh) as (new & Hs & Hout)
      end.
      eexists (new ++ [_; _; _; _; _; _]).
      rewrite Hs. split; [now rewrite <- app_assoc|].
      destruct Hout as [(Hr & Hw & Hrd) | (n & bk & Hn & Hr & Hw & Hrd & Hne)].
      * left. rewrite Hr. split; [reflexivity|].
        rewrite all_writes_app, reads_of_app, Hw, Hrd. split; reflexivity.
      * right. exists (S n), bk. rewrite Hr.
        split; [cbn [List.length]; lia|]. split; [reflexivity|].
        rewrite all_writes_app, reads_of_app, Hw, Hrd.
        split; [reflexivity|]. split; [reflexivity|]. exact Hne.
    + eexists [_; _; _; _; _; _]. split; [reflexivity|].
      right. exists 0%nat, back. cbn [List.length].
      split; [lia|]. split; [reflexivity|].
      split; [reflexivity|]. split; [reflexivity|].
      intros ->. rewrite (proj2 (list_eqb_eq _ _) eq_refl) in Eb. discriminate.
Qed.

Lemma range_step_valid (config : list Z) :
  Z.of_nat (List.length config) < 0x2000 ->
  Z.of_nat (List.length config) mod 8 = 0 ->
  Forall (fun o => 0 <= o <= 0x2000 - 8 /\
                   List.length (chunk config o) = 8%nat)
         (range_step (Z.of_nat (List.length config)) _MAX_TRANSFER_LENGTH).
Proof.
  intros Hlt Hmod. unfold range_step, _MAX_TRANSFER_LENGTH.
  apply Z.mod_divide in Hmod; [|lia]. destruct Hmod as (k & Hk).
  rewrite Hk.
  replace ((k * 8 + 8 - 1) / 8) with k
    by (apply Z.div_unique with 7; lia).
  apply Forall_forall. intros o Ho.
  apply in_map_iff in Ho as (i & <- & Hi). apply in_seq in Hi.
  assert (Hik : Z.of_nat i < k) by lia.
  split; [lia|].
  unfold chunk, _MAX_TRANSFER_LENGTH.
  rewrite length_firstn, length_skipn. lia.
Qed.


(** Reading [lowPowerMode] only reads. *)
Lemma get_lowPowerMode_reads (h : bus) :
  exists lp reads,
    get_lowPowerMode device h = (Ok lp, reads ++ h) /\ all_writes reads = [].
Proof.
  unfold get_lowPowerMode. unfold bind at 1. rewrite get_bit_run.
  match goal with |- context [if ?c then _ else _] => destruct c end.
  - unfold bind. rewrite get_bit_run. unfold ret.
    eexists. eexists [_; _]. split; reflexivity.
  - unfold ret. eexists. eexists [_]. split; reflexivity.
Qed.


Lemma loadMainConfig_unfold (config : list Z) (h : bus) (lp : bool) (h1 : bus) :
  get_lowPowerMode device h = (Ok lp, h1) ->
  _loadMainConfig device config h =
    if lp
    then (Raise (RuntimeError "ACCEL: Cannot load config in low power mode."), h1)
    else if Z.of_nat (List.length config) >=? 0x2000
    then (Raise (RuntimeError "ACCEL: Config too large."), h1)
    else if negb (Z.of_nat (List.length config) mod 8 =? 0)
    then (Raise (RuntimeError "ACCEL: Config size must be a multiple of eight."), h1)
    else load_chunks device config
           (range_step (Z.of_nat (List.length config)) _MAX_TRANSFER_LENGTH) h1.
Proof.
  intros E. unfold _loadMainConfig, bind. rewrite E.
  destruct lp; [reflexivity|].
  destruct (Z.of_nat (List.length config) >=? 0x2000); [reflexivity|].
  destruct (negb (Z.of_nat (List.length config) mod 8 =? 0)); reflexivity.
Qed.

(** C6, as the code has it.  [_loadMainConfig] first reads [lowPowerMode]
    (register reads, no write) and raises when it is on; then it raises for
    a buffer of 0x2000 bytes or more and for a length that is not a multiple
    of eight, still without a write; an empty buffer is accepted and nothing
    is written.  For an accepted buffer of bytes the loop writes, for each
    offset in turn, the window address and the chunk, reads the chunk back,
    and stops with the verify error at the first readback that differs. *)
Theorem loadMainConfig_checks_then_loads (config : list Z) (h : bus) :
  let len := Z.of_nat (List.length config) in
  exists (lp : bool) (reads : bus),
    get_lowPowerMode device h = (Ok lp, reads ++ h) /\
    all_writes reads = [] /\
    (lp = true ->
     _loadMainConfig device config h =
       (Raise (RuntimeError "ACCEL: Cannot load config in low power mode."),
        reads ++ h)) /\
    (lp = false -> 0x2000 <= len ->
     _loadMainConfig device config h =
       (Raise (RuntimeError "ACCEL: Config too large."), reads ++ h)) /\
    (lp = false -> len < 0x2000 -> len mod 8 <> 0 ->
     _loadMainConfig device config h =
       (Raise (RuntimeError "ACCEL: Config size must be a multiple of eight."),
        reads ++ h)) /\
    (lp = false -> len = 0 ->
     _loadMainConfig device config h = (Ok tt, reads ++ h)) /\
    (lp = false -> len < 0x2000 -> len mod 8 = 0 ->
     forallb is_byte config = true ->
     exists new,
       snd (_loadMainConfig device config h) = new ++ reads ++ h /\
       load_outcome config (range_step len _MAX_TRANSFER_LENGTH)
         (fst (_loadMainConfig device config h)) new).
Proof.
  intros len.
  destruct (get_lowPowerMode_reads h) as (lp & reads & E & W).
  exists lp, reads. split; [exact E|]. split; [exact W|].
  pose proof (loadMainConfig_unfold config h lp _ E) as U. fold len in U.
  split; [|split; [|split; [|split]]].
  - intros ->. exact U.
  - intros -> Hlen. rewrite U.
    destruct (Z.geb_spec len 0x2000); [reflexivity|lia].
  - intros -> Hlen Hmod. rewrite U.
    destruct (Z.geb_spec len 0x2000); [lia|].
    destruct (Z.eqb_spec (len mod 8) 0); [contradiction|reflexivity].
  - intros -> Hlen. rewrite U, Hlen. reflexivity.
  - intros -> Hlen Hmod Hbytes. rewrite U.
    destruct (Z.geb_spec len 0x2000); [lia|].
    rewrite Hmod. cbn [Z.eqb negb].
    apply load_chunks_outcome; [exact Hbytes|].
    apply range_step_valid; assumption.
Qed.




End AccelerometerFacts.

Section AccelerometerExamples.
Import Accelerometer.





(** On the sample chip that echoes its feature window the whole reset goes
    through and ends with low-power mode switched back on. *)
Example reset_on_echoing_chip :
  let r := reset (F := DecimalFloat.decimal) (sample_chip false) 1
             sample_config [] in
  fst r = Ok tt /\
  writes_to _featuresIn (snd r) = [chunk sample_config 0; chunk sample_config 8] /\
  writes_to (bit_register_address _accEn) (snd r) = [[0x04]] /\
  writes_to (register_address _accRange) (snd r) = [[0x00]] /\
  writes_to (bit_register_address _advPowerSave) (snd r) = [[0x00]; [0x01]].
Proof. vm_compute. repeat split. Qed.

Lemma acceleration_scales_each_axis_witness :
  fst (acceleration resting_chip []) =
    Ok (mk_vector (inject_Z (0 + 1) / inject_Z (2 ^ (10 - 0)))
                  (inject_Z (0 + 1) / inject_Z (2 ^ (10 - 0)))
                  (inject_Z (1023 + 1) / inject_Z (2 ^ (10 - 0)))) /\
  (-2048 <= 0 < 2048 /\ -2048 <= 0 < 2048 /\ -2048 <= 1023 < 2048 /\
   0 <= 0 < 4 /\ 128 <= 2 ^ (10 - 0) <= 1024) /\
  scale 0 0 == 0.0009765625.
Proof.
  apply (acceleration_scales_each_axis resting_chip [] 0 0 1023 0);
    intros h'; reflexivity.
Defined.

(** C6, as stated, fails: an empty buffer is not rejected.  The load
    returns normally, and the only bus traffic is the register read of the
    low-power check, which precedes every length check. *)
Lemma loadMainConfig_accepts_empty_buffer :
  _loadMainConfig (sample_chip false) [] [] =
    (Ok tt, [BusRead (bit_register_address _advPowerSave) [0x00]]) /\
  _loadMainConfig (sample_chip false) [0x01; 0x02; 0x03] [] =
    (Raise (RuntimeError "ACCEL: Config size must be a multiple of eight."),
     [BusRead (bit_register_address _advPowerSave) [0x00]]).
Proof. vm_compute. split; reflexivity. Qed.

(** The load on the echoing sample chip, and on the inverting one. *)
Example loadMainConfig_on_sample_chips :
  (let r := _loadMainConfig (sample_chip false) sample_config [] in
   fst r = Ok tt /\
   all_writes (snd r) =
     flat_map (transfer_writes sample_config) [0; 8] /\
   reads_of _featuresIn (snd r) = map (chunk sample_config) [0; 8]) /\
  (let r := _loadMainConfig (sample_chip true) sample_config [] in
   fst r = Raise (RuntimeError "ACCEL: Config verify failed.") /\
   all_writes (snd r) = flat_map (transfer_writes sample_config) [0]).
Proof. vm_compute. repeat split. Qed.

End AccelerometerExamples.
